(** * Verification of the Frontline substitute-job scraper's lifecycle engine

    Shallow embedding of
    - [filters.mjs] (the classifier, [filterJob] and its four axes),
    - [utils.mjs] ([createJobHash]),
    - the daemon ([processCallbacks], [executePendingBookings],
      [expireOldNotifications], [recoverStuckBookings], the dispatch loop of
      [performScrapeFilterNotify] and the start-up of [main]).

    Strings are modelled as Rocq [string]s over ASCII; [toLowerCase] maps
    the letters A-Z to a-z and leaves every other character alone. *)

From Stdlib Require Import String Ascii List ZArith Bool Lia Sorting.Sorted.
Import ListNotations.
Open Scope string_scope.
Open Scope Z_scope.

(* ================================================================== *)
(** ** JavaScript values and exceptions *)

(** The text fields of a scraped job are JavaScript values: normally a
    string, but a job object may lack a field ([undefined]) or hold [null]. *)
Inductive jsval : Type :=
| JUndef
| JNull
| JStr (s : string).

(** Errors a JavaScript computation can throw. *)
Inductive jserror : Type :=
| TypeError (msg : string)
| Error (msg : string).

(** A computation that returns a value or throws. *)
Inductive except (A : Type) : Type :=
| Ok (a : A)
| Throw (e : jserror).
Arguments Ok {A} a.
Arguments Throw {A} e.

Definition ebind {A B} (m : except A) (k : A -> except B) : except B :=
  match m with
  | Ok a => k a
  | Throw e => Throw e
  end.

Notation "'let!' x ':=' m 'in' k" := (ebind m (fun x => k))
  (at level 200, x name, m at level 100, k at level 200).

(** ASCII [toLowerCase] of one character. *)
Definition lowerAscii (c : ascii) : ascii :=
  let n := nat_of_ascii c in
  if (65 <=? n)%nat && (n <=? 90)%nat then ascii_of_nat (n + 32) else c.

Fixpoint lowerStr (s : string) : string :=
  match s with
  | EmptyString => EmptyString
  | String c s' => String (lowerAscii c) (lowerStr s')
  end.

(** [v.toLowerCase()]: a method call on [undefined] or [null] throws. *)
Definition toLowerCase (v : jsval) : except string :=
  match v with
  | JStr s => Ok (lowerStr s)
  | JUndef => Throw (TypeError "Cannot read properties of undefined (reading 'toLowerCase')")
  | JNull => Throw (TypeError "Cannot read properties of null (reading 'toLowerCase')")
  end.

(** String conversion done by a template literal [`${v}`]. *)
Definition jsToString (v : jsval) : string :=
  match v with
  | JUndef => "undefined"
  | JNull => "null"
  | JStr s => s
  end.

(** [s.includes(p)]. *)
Fixpoint includes (s p : string) : bool :=
  prefix p s ||
  match s with
  | EmptyString => false
  | String _ s' => includes s' p
  end.

(** [for (const x of xs) if (s.includes(x)) return true; return false] *)
Definition includesAny (s : string) (xs : list string) : bool :=
  existsb (includes s) xs.

(* ================================================================== *)
(** ** Jobs *)

Record DaySlot : Type := mkDay {
  day_date : jsval;
  day_startTime : jsval;
  day_endTime : jsval;
  day_duration : jsval;
  day_location : jsval
}.

(** The job object built by [scrapeJobs]. *)
Record Job : Type := mkJob {
  teacher : jsval;
  position : jsval;
  reportTo : jsval;
  jobNumber : jsval;
  date : jsval;
  startTime : jsval;
  endTime : jsval;
  duration : jsval;
  school : jsval;
  isMultiDay : bool;
  days : list DaySlot
}.

(** A single-day job whose text fields are all strings. *)
Definition strJob (d s p du : string) : Job :=
  {| teacher := JStr "N/A"; position := JStr p; reportTo := JStr "N/A";
     jobNumber := JStr "N/A"; date := JStr d; startTime := JStr "N/A";
     endTime := JStr "N/A"; duration := JStr du; school := JStr s;
     isMultiDay := false; days := [] |}.

Definition isStr (v : jsval) : bool :=
  match v with JStr _ => true | _ => false end.

(** The fields [filterJob] reads are strings (what [scrapeJobs] produces:
    the text of the element, or the sentinel ['N/A']). *)
Definition classifiable (j : Job) : bool :=
  isStr (school j) && isStr (position j) && isStr (duration j).

(* ================================================================== *)
(** ** Classifier ([filters.mjs]) *)

Module Filters.

Definition ACCEPTED_SCHOOL_LEVELS : list string :=
  ["high school"; "hs"; "jr. high"; "jr high"; "junior high";
   "middle school"; "intermediate"].

Definition REJECTED_SCHOOL_LEVELS : list string :=
  ["elementary"; "elem"; "primary"; "kindergarten"; "pre-k"; "preschool";
   "pre school"].

Definition BLACKLISTED_SCHOOLS : list string :=
  ["westlake high school"; "westlake hs"; "saratoga springs";
   "vista heights middle school"; "vista heights"].

Definition NEARBY_SCHOOLS : list string :=
  ["orem"; "lindon"; "pleasant grove"; "vineyard"; "american fork";
   "cedar hills"; "highland"; "alpine"; "lehi";
   "mountain view"; "timpanogos"; "canyon view"; "lone peak"; "skyridge";
   "timberline"].

Definition ACCEPTED_SUBJECTS : list string :=
  ["history"; "government"; "geography"; "econ"; "sociology"; "psychology";
   "social studies"; "political science"; "civics"; "humanities";
   "english"; "language arts"; "ela"; "literature"; "writing";
   "composition"; "reading";
   "band"; "orchestra"; "music";
   "math"; "algebra"; "geometry"; "calculus"; "statistics";
   "science"; "biology"; "chemistry"; "physics"; "anatomy"; "physiology";
   "cte"; "career and technical"; "career tech";
   "art"; "visual arts"; "drawing"; "painting"; "ceramics"; "drama";
   "theater"; "theatre"; "performing arts"].

Definition REJECTED_SUBJECTS : list string :=
  ["spanish"; "french"; "german"; "chinese"; "japanese"; "sign language";
   "english language learner";
   "computer science"; "coding"; "programming";
   "choir"; "chorus"; "choral";
   "physical education"; "gym"; "drivers ed"; "driver education";
   "special education"; "special ed"; "sped"].

Definition ACCEPTED_DURATIONS : list string :=
  ["full day"; "full-day"; "fullday"].

Definition REJECTED_DURATIONS : list string :=
  ["half day"; "half-day"; "halfday"; "half day am"; "half day pm";
   "partial"].

Definition isSchoolLevelAccepted (schoolName : jsval) : except bool :=
  let! lowerSchool := toLowerCase schoolName in
  if includesAny lowerSchool REJECTED_SCHOOL_LEVELS then Ok false
  else if includesAny lowerSchool ACCEPTED_SCHOOL_LEVELS then Ok true
  else Ok false.

Definition isSchoolBlacklisted (schoolName : jsval) : except bool :=
  let! lowerSchool := toLowerCase schoolName in
  Ok (includesAny lowerSchool BLACKLISTED_SCHOOLS).

Definition isSchoolNearby (schoolName : jsval) : except bool :=
  let! lowerSchool := toLowerCase schoolName in
  Ok (includesAny lowerSchool NEARBY_SCHOOLS).

(** The three-valued result of [isSubjectAccepted]. *)
Inductive Verdict : Type := ACCEPT | REJECT | UNCERTAIN.

Definition verdict_eqb (a b : Verdict) : bool :=
  match a, b with
  | ACCEPT, ACCEPT | REJECT, REJECT | UNCERTAIN, UNCERTAIN => true
  | _, _ => false
  end.

Definition isSubjectAccepted (pos : jsval) : except Verdict :=
  let! lowerPosition := toLowerCase pos in
  if includesAny lowerPosition REJECTED_SUBJECTS then Ok REJECT
  else if includesAny lowerPosition ACCEPTED_SUBJECTS then Ok ACCEPT
  else Ok UNCERTAIN.

Definition isDurationAccepted (dur : jsval) : except bool :=
  let! lowerDuration := toLowerCase dur in
  if includesAny lowerDuration REJECTED_DURATIONS then Ok false
  else if includesAny lowerDuration ACCEPTED_DURATIONS then Ok true
  else Ok false.

(** [{ match, reason, uncertain }] *)
Record FilterResult : Type := mkResult {
  match_ : bool;
  reason : string;
  uncertain : bool
}.

Definition filterJob (job : Job) : except FilterResult :=
  let! blacklisted := isSchoolBlacklisted (school job) in
  let! schoolLevelOk := isSchoolLevelAccepted (school job) in
  let! fullDay := isDurationAccepted (duration job) in
  let! subjectResult := isSubjectAccepted (position job) in
  let! nearby := isSchoolNearby (school job) in
  let sch := jsToString (school job) in
  let pos := jsToString (position job) in
  let dur := jsToString (duration job) in
  if verdict_eqb subjectResult REJECT then
    Ok (mkResult false ("Subject rejected: " ++ pos) false)
  else if negb schoolLevelOk && negb blacklisted then
    Ok (mkResult false ("School level not accepted: " ++ sch) false)
  else if blacklisted then
    if fullDay && (verdict_eqb subjectResult ACCEPT
                   || verdict_eqb subjectResult UNCERTAIN) then
      Ok (mkResult true
            ("Blacklisted school (uncertain): " ++ sch ++ " - " ++ pos) true)
    else Ok (mkResult false ("Blacklisted school: " ++ sch) false)
  else if fullDay then
    if verdict_eqb subjectResult ACCEPT then
      Ok (mkResult true
            ("All criteria met: " ++ sch ++ " - " ++ pos ++ " - " ++ dur) false)
    else
      Ok (mkResult true
            ("Uncertain subject match: " ++ pos ++ " at " ++ sch) true)
  else if nearby && verdict_eqb subjectResult ACCEPT then
    Ok (mkResult true
          ("Half day nearby (uncertain): " ++ sch ++ " - " ++ pos ++ " - " ++ dur)
          true)
  else
    Ok (mkResult false
          ("Half day " ++ (if nearby then "uncertain subject" else "not nearby")
           ++ ": " ++ sch ++ " - " ++ dur) false).

End Filters.

(* ================================================================== *)
(** ** Fingerprint ([utils.mjs]) *)

(** [createJobHash]: md5 hex digest of the lower-cased
    [`${job.date}-${job.school}-${job.position}`].  The digest is taken as
    a parameter [md5]: only its being a function matters here. *)
Definition createJobHash (md5 : string -> string) (job : Job) : string :=
  md5 (lowerStr (jsToString (date job) ++ "-" ++ jsToString (school job)
                 ++ "-" ++ jsToString (position job))).

(* ================================================================== *)
(** ** Lifecycle store *)

Inductive Status : Type :=
| notified | book_requested | booking | booked | failed | ignored | expired.

Definition status_eqb (a b : Status) : bool :=
  match a, b with
  | notified, notified | book_requested, book_requested | booking, booking
  | booked, booked | failed, failed | ignored, ignored
  | expired, expired => true
  | _, _ => false
  end.

Definition statusString (s : Status) : string :=
  match s with
  | notified => "notified" | book_requested => "book_requested"
  | booking => "booking" | booked => "booked" | failed => "failed"
  | ignored => "ignored" | expired => "expired"
  end.

(** An entry of [notifiedJobs].  [expiresAt], [telegramMessageId] and
    [jobData] may be [null] ([None]); [autoBooked] is absent (read as
    [false]) on entries created by the confirmation path. *)
Record Entry : Type := mkEntry {
  status : Status;
  timestamp : Z;
  expiresAt : option Z;
  telegramMessageId : option Z;
  jobData : option Job;
  e_uncertain : bool;
  autoBooked : bool
}.

Definition withStatus (e : Entry) (s : Status) : Entry :=
  {| status := s; timestamp := timestamp e; expiresAt := expiresAt e;
     telegramMessageId := telegramMessageId e; jobData := jobData e;
     e_uncertain := e_uncertain e; autoBooked := autoBooked e |}.

(** The in-memory [notifiedJobs] object: its own keys in insertion order. *)
Definition Store : Type := list (string * Entry).

(** [notifiedJobs[h]] *)
Fixpoint lookup (h : string) (st : Store) : option Entry :=
  match st with
  | [] => None
  | (k, e) :: st' => if String.eqb k h then Some e else lookup h st'
  end.

(** [notifiedJobs[h] = e]: an existing key keeps its place, a new key is
    appended. *)
Fixpoint set (h : string) (e : Entry) (st : Store) : Store :=
  match st with
  | [] => [(h, e)]
  | (k, e') :: st' => if String.eqb k h then (k, e) :: st' else (k, e') :: set h e st'
  end.

Definition keys (st : Store) : list string := map fst st.

(** A value of the JSON file: a legacy bare timestamp or an entry. *)
Inductive Stored : Type :=
| Legacy (ts : Z)
| Rec (e : Entry).

(** The file [notified-jobs.json]; [None] when missing or unparsable. *)
Definition Disk : Type := option (list (string * Stored)).

Fixpoint lookupDisk (h : string) (d : list (string * Stored)) : option Stored :=
  match d with
  | [] => None
  | (k, v) :: d' => if String.eqb k h then Some v else lookupDisk h d'
  end.

(* ================================================================== *)
(** ** The world the daemon runs in *)

(** [query.data] of a Telegram callback query. *)
Record CallbackQuery : Type := mkQuery {
  cq_id : string;
  cq_data : jsval
}.

Record Update : Type := mkUpdate {
  update_id : Z;
  callback_query : option CallbackQuery
}.

(** Outcome of [bookJobOnPage]: [{success: true}], [{success: false,
    reason}] or a thrown exception. *)
Inductive BookResult : Type :=
| BookSuccess
| BookFail (why : string)
| BookThrows.

(** Outcome of a Telegram [sendMessage]: the [message_id] (or [null]) or a
    thrown error. *)
Inductive SendResult : Type :=
| SendOk (messageId : option Z)
| SendThrows.

(** Observable effects, newest first in [trace].  [EvStatus] is a ghost
    event recording every assignment to [entry.status]; [EvBookCall] records
    the invocation of [bookJobOnPage] together with what the file holds for
    that fingerprint at that instant (what a crash during the call leaves). *)
Inductive Event : Type :=
| EvAnswer (queryId : string) (text : string)
| EvEdit (messageId : Z) (what : string)
| EvStatus (h : string) (from to : Status)
| EvBookCall (h : string) (onDisk : option Stored)
| EvSend (kind : string) (h : string)
| EvSave.

Record World : Type := mkWorld {
  disk : Disk;
  lastUpdateOffset : Z;
  tgUpdates : list Update;        (** updates held by the Telegram server *)
  bookOracle : list BookResult;   (** successive outcomes of [bookJobOnPage] *)
  sendOracle : list SendResult;   (** successive outcomes of [sendMessage] *)
  clock : list Z;                 (** successive readings of [Date.now()] *)
  trace : list Event
}.

Definition M (A : Type) : Type := World -> A * World.

Definition ret {A} (a : A) : M A := fun w => (a, w).
Definition bind {A B} (m : M A) (k : A -> M B) : M B :=
  fun w => let (a, w') := m w in k a w'.

Notation "x <- m ;; k" := (bind m (fun x => k))
  (at level 61, m at next level, right associativity).
Notation "m ;;; k" := (bind m (fun _ => k))
  (at level 61, right associativity).

Definition emit (ev : Event) : M unit :=
  fun w => (tt, {| disk := disk w; lastUpdateOffset := lastUpdateOffset w;
                   tgUpdates := tgUpdates w; bookOracle := bookOracle w;
                   sendOracle := sendOracle w; clock := clock w;
                   trace := ev :: trace w |}).

Definition getWorld : M World := fun w => (w, w).

Definition putDisk (d : Disk) : M unit :=
  fun w => (tt, {| disk := d; lastUpdateOffset := lastUpdateOffset w;
                   tgUpdates := tgUpdates w; bookOracle := bookOracle w;
                   sendOracle := sendOracle w; clock := clock w;
                   trace := trace w |}).

Definition putOffset (o : Z) : M unit :=
  fun w => (tt, {| disk := disk w; lastUpdateOffset := o;
                   tgUpdates := tgUpdates w; bookOracle := bookOracle w;
                   sendOracle := sendOracle w; clock := clock w;
                   trace := trace w |}).

(** [Date.now()]: the next reading; the last one repeats. *)
Definition dateNow : M Z :=
  fun w => match clock w with
           | [] => (0, w)
           | [t] => (t, w)
           | t :: rest =>
               (t, {| disk := disk w; lastUpdateOffset := lastUpdateOffset w;
                      tgUpdates := tgUpdates w; bookOracle := bookOracle w;
                      sendOracle := sendOracle w; clock := rest;
                      trace := trace w |})
           end.

(** The page's answer to one booking attempt; once the oracle is exhausted
    the attempt fails with ['error']. *)
Definition nextBookResult : M BookResult :=
  fun w => match bookOracle w with
           | [] => (BookFail "error", w)
           | r :: rest =>
               (r, {| disk := disk w; lastUpdateOffset := lastUpdateOffset w;
                      tgUpdates := tgUpdates w; bookOracle := rest;
                      sendOracle := sendOracle w; clock := clock w;
                      trace := trace w |})
           end.

Definition nextSendResult : M SendResult :=
  fun w => match sendOracle w with
           | [] => (SendThrows, w)
           | r :: rest =>
               (r, {| disk := disk w; lastUpdateOffset := lastUpdateOffset w;
                      tgUpdates := tgUpdates w; bookOracle := bookOracle w;
                      sendOracle := rest; clock := clock w;
                      trace := trace w |})
           end.

Fixpoint foldM {A B} (f : A -> B -> M A) (a : A) (xs : list B) : M A :=
  match xs with
  | [] => ret a
  | x :: xs' => a' <- f a x ;; foldM f a' xs'
  end.

(* ================================================================== *)
(** ** The daemon ([scraper-daemon.mjs]) *)

Module Daemon.

Definition NOTIFICATION_EXPIRY_MS : Z := 5 * 60 * 1000.
Definition AUTO_BOOK_MIN_DAYS_AHEAD : Z := 3.
Definition MAX_JOB_AGE_DAYS : Z := 7.

(** Migration of a legacy bare timestamp in [loadNotifiedJobs]. *)
Definition migrate (v : Stored) : Entry :=
  match v with
  | Legacy ts =>
      {| status := expired; timestamp := ts; expiresAt := Some ts;
         telegramMessageId := None; jobData := None; e_uncertain := false;
         autoBooked := false |}
  | Rec e => e
  end.

Definition loadedStore (d : Disk) : Store :=
  match d with
  | None => []                      (* [catch (error) { return {}; }] *)
  | Some raw => map (fun '(k, v) => (k, migrate v)) raw
  end.

Definition loadNotifiedJobs : M Store :=
  w <- getWorld ;; ret (loadedStore (disk w)).

Definition saveNotifiedJobs (st : Store) : M unit :=
  putDisk (Some (map (fun '(k, e) => (k, Rec e)) st)) ;;; emit EvSave.

(** [entry.status = s] on the entry stored under [h]. *)
Definition setStatus (st : Store) (h : string) (s : Status) : M Store :=
  match lookup h st with
  | Some e => emit (EvStatus h (status e) s) ;;; ret (set h (withStatus e s) st)
  | None => ret st
  end.

(** [entry.telegramMessageId && entry.jobData]: the message to edit. *)
Definition editTarget (e : Entry) : option Z :=
  match telegramMessageId e, jobData e with
  | Some m, Some _ => if Z.eqb m 0 then None else Some m
  | _, _ => None
  end.

Definition answerCallback (queryId text : string) : M unit :=
  emit (EvAnswer queryId text).

Definition updateMessageAfterAction (e : Entry) (what : string) : M unit :=
  match editTarget e with
  | Some m => emit (EvEdit m what)
  | None => ret tt
  end.

(** The server side of [getUpdates?offset=o]: updates with id [>= o]. *)
Definition pendingUpdates (o : Z) (us : list Update) : list Update :=
  filter (fun u => o <=? update_id u) us.

(** [pollCallbackQueries(lastUpdateOffset)] *)
Definition pollCallbackQueries (o : Z) : M (list CallbackQuery * Z) :=
  w <- getWorld ;;
  let updates := pendingUpdates o (tgUpdates w) in
  match rev updates with
  | [] => ret ([], o)
  | lastU :: _ =>
      ret (flat_map (fun u => match callback_query u with
                              | Some q => [q] | None => [] end) updates,
           update_id lastU + 1)
  end.

(** [data.split(':')] *)
Fixpoint splitColon (s : string) : list string :=
  match s with
  | EmptyString => [""]
  | String c s' =>
      let parts := splitColon s' in
      if Ascii.eqb c ":" then "" :: parts
      else match parts with
           | p :: ps => String c p :: ps
           | [] => [String c EmptyString]
           end
  end.

(** [const data = query.data || ''; const [action, jobHash] = data.split(':')] *)
Definition queryAction (q : CallbackQuery) : string * option string :=
  let data := match cq_data q with JStr s => s | _ => "" end in
  match splitColon data with
  | [] => ("", None)
  | [a] => (a, None)
  | a :: h :: _ => (a, Some h)
  end.

(** The body of the [for (const query of queries)] loop.  [lookup] finds
    the store's own keys only; the JavaScript [notifiedJobs[jobHash]] also
    finds the members every object inherits ([constructor], [toString],
    ..., see [Props.objectPrototypeNames]), for which the code answers
    ["Already undefined"] and leaves the store unchanged. *)
Definition processQuery (st : Store) (q : CallbackQuery) : M Store :=
  let '(action, jobHash) := queryAction q in
  match jobHash with
  | None | Some "" => answerCallback (cq_id q) "Job not found or expired" ;;; ret st
  | Some h =>
      match lookup h st with
      | None => answerCallback (cq_id q) "Job not found or expired" ;;; ret st
      | Some e =>
          if String.eqb action "book" then
            if negb (status_eqb (status e) notified) then
              answerCallback (cq_id q) ("Already " ++ statusString (status e)) ;;; ret st
            else
              st' <- setStatus st h book_requested ;;
              answerCallback (cq_id q) "Booking..." ;;; ret st'
          else if String.eqb action "ignore" then
            if negb (status_eqb (status e) notified) then
              answerCallback (cq_id q) ("Already " ++ statusString (status e)) ;;; ret st
            else
              st' <- setStatus st h ignored ;;
              answerCallback (cq_id q) "Ignored" ;;;
              updateMessageAfterAction e "ignored" ;;; ret st'
          else ret st
      end
  end.

Definition processCallbacks (st : Store) : M Store :=
  w <- getWorld ;;
  p <- pollCallbackQueries (lastUpdateOffset w) ;;
  let '(queries, newOffset) := p in
  putOffset newOffset ;;;
  foldM processQuery st queries.

(** [bookJobOnPage(page, jobData)]; [h] only labels the recorded call. *)
Definition bookJobOnPage (h : string) (jd : option Job) : M BookResult :=
  w <- getWorld ;;
  emit (EvBookCall h (match disk w with
                      | Some d => lookupDisk h d
                      | None => None end)) ;;;
  match option_map jobNumber jd with
  | Some (JStr s) => if String.eqb s "" then ret (BookFail "error") else nextBookResult
  | _ => ret (BookFail "error")             (* [!jobData?.jobNumber] *)
  end.

(** One iteration of [executePendingBookings]. *)
Definition executeOne (st : Store) (h : string) : M Store :=
  match lookup h st with
  | Some e =>
      if negb (status_eqb (status e) book_requested) then ret st
      else
        st1 <- setStatus st h booking ;;
        r <- bookJobOnPage h (jobData e) ;;
        match r with
        | BookSuccess =>
            st2 <- setStatus st1 h booked ;;
            updateMessageAfterAction e "booked" ;;; ret st2
        | BookFail why =>
            st2 <- setStatus st1 h failed ;;
            updateMessageAfterAction e
              (if String.eqb why "taken" then "taken" else "error") ;;; ret st2
        | BookThrows =>
            st2 <- setStatus st1 h failed ;;
            updateMessageAfterAction e "error" ;;; ret st2
        end
  | None => ret st
  end.

Definition executePendingBookings (st : Store) : M Store :=
  foldM executeOne st (keys st).

(** [entry.expiresAt && now > entry.expiresAt] *)
Definition pastExpiry (now : Z) (e : Entry) : bool :=
  match expiresAt e with
  | Some t => negb (Z.eqb t 0) && (t <? now)
  | None => false
  end.

Definition expireOne (now : Z) (st : Store) (h : string) : M Store :=
  match lookup h st with
  | Some e =>
      if status_eqb (status e) notified && pastExpiry now e then
        st' <- setStatus st h expired ;;
        updateMessageAfterAction e "expired" ;;; ret st'
      else ret st
  | None => ret st
  end.

Definition expireOldNotifications (st : Store) : M Store :=
  now <- dateNow ;; foldM (expireOne now) st (keys st).

(** [recoverStuckBookings] *)
Definition recoverStuckBookings (st : Store) : Store :=
  map (fun '(k, e) =>
         if status_eqb (status e) booking then (k, withStatus e failed) else (k, e))
      st.

(** The start of [main]: load, recover, save, before the first cycle. *)
Definition startup : M Store :=
  st <- loadNotifiedJobs ;;
  let st' := recoverStuckBookings st in
  saveNotifiedJobs st' ;;; ret st'.

(** [shouldAutoBook(job, uncertain)] with [daysAhead = getJobDaysAhead(job)]. *)
Definition shouldAutoBook (daysAhead : Z) (unc : bool) : bool :=
  if unc then false else AUTO_BOOK_MIN_DAYS_AHEAD <=? daysAhead.

(** One iteration of the "send notifications for new matches" loop; the
    accumulator is [(notifiedJobs, newJobsNotified, autoBooked)].  The
    calendar arithmetic of [getJobDaysAhead] is the parameter [daysAheadOf]. *)
Definition dispatchOne (md5 : string -> string) (daysAheadOf : Job -> Z)
    (acc : Store * nat * nat) (m : Job * Filters.FilterResult)
    : M (Store * nat * nat) :=
  let '(st, nNew, nAuto) := acc in
  let '(job, fr) := m in
  let h := createJobHash md5 job in
  match lookup h st with
  | Some _ => ret acc
  | None =>
      if shouldAutoBook (daysAheadOf job) (Filters.uncertain fr) then
        emit (EvSend "auto" h) ;;;
        r <- nextSendResult ;;
        match r with
        | SendThrows => ret acc                  (* caught: no entry *)
        | SendOk mid =>
            t <- dateNow ;;
            ret (set h {| status := book_requested; timestamp := t;
                          expiresAt := None; telegramMessageId := mid;
                          jobData := Some job; e_uncertain := false;
                          autoBooked := true |} st, S nNew, S nAuto)
        end
      else
        emit (EvSend "keyboard" h) ;;;
        r <- nextSendResult ;;
        match r with
        | SendThrows => ret acc
        | SendOk mid =>
            t1 <- dateNow ;;
            t2 <- dateNow ;;
            ret (set h {| status := notified; timestamp := t1;
                          expiresAt := Some (t2 + NOTIFICATION_EXPIRY_MS);
                          telegramMessageId := mid; jobData := Some job;
                          e_uncertain := Filters.uncertain fr;
                          autoBooked := false |} st, S nNew, nAuto)
        end
  end.

(** [cleanOldNotifications] *)
Definition cleanOldNotifications (st : Store) : M Store :=
  now <- dateNow ;;
  let cutoff := now - MAX_JOB_AGE_DAYS * 24 * 60 * 60 * 1000 in
  ret (filter (fun '(_, e) => cutoff <? timestamp e) st).

(** The filter loop: the matched jobs, or the exception [filterJob] threw. *)
Fixpoint matchJobs (jobs : list Job) : except (list (Job * Filters.FilterResult)) :=
  match jobs with
  | [] => Ok []
  | j :: js =>
      let! r := Filters.filterJob j in
      let! rest := matchJobs js in
      Ok (if Filters.match_ r then (j, r) :: rest else rest)
  end.

(** [performScrapeFilterNotify] with the scraped [jobs]; page reloads,
    screenshots and the summary message are not modelled.  Returns
    [(jobsSeen, jobsNotified)]. *)
Definition performScrapeFilterNotify (md5 : string -> string)
    (daysAheadOf : Job -> Z) (jobs : list Job) : M (except (nat * nat)) :=
  st0 <- loadNotifiedJobs ;;
  st1 <- processCallbacks st0 ;;
  st2 <- executePendingBookings st1 ;;
  st3 <- expireOldNotifications st2 ;;
  saveNotifiedJobs st3 ;;;
  match matchJobs jobs with
  | Throw e => ret (Throw e)
  | Ok matched =>
      acc <- foldM (dispatchOne md5 daysAheadOf) (st3, O, O) matched ;;
      let '(st4, nNew, nAuto) := acc in
      st5 <- (if Nat.ltb 0 nAuto then executePendingBookings st4 else ret st4) ;;
      st6 <- cleanOldNotifications st5 ;;
      saveNotifiedJobs st6 ;;;
      ret (Ok (length jobs, nNew))
  end.


(** *** Auto-booking date arithmetic ([getJobDaysAhead]) *)

(** [A-Za-z] *)
Definition isLetter (c : ascii) : bool :=
  let n := nat_of_ascii c in
  ((65 <=? n)%nat && (n <=? 90)%nat) || ((97 <=? n)%nat && (n <=? 122)%nat).

(** [\s] on ASCII: space, tab, line feed, vertical tab, form feed, carriage
    return. *)
Definition isWs (c : ascii) : bool :=
  let n := nat_of_ascii c in (n =? 32)%nat || ((9 <=? n)%nat && (n <=? 13)%nat).

Fixpoint afterLetters (s : string) : string :=
  match s with
  | String c s' => if isLetter c then afterLetters s' else s
  | EmptyString => EmptyString
  end.

Fixpoint dropWs (s : string) : string :=
  match s with
  | String c s' => if isWs c then dropWs s' else s
  | EmptyString => EmptyString
  end.

(** [dateStr.replace(/^[A-Za-z]+,\s*/, '')]: a letter run is followed by a
    non-letter, so the greedy run is the only candidate for the comma. *)
Definition stripDayName (s : string) : string :=
  match s with
  | String c _ =>
      if isLetter c then
        match afterLetters s with
        | String "," r => dropWs r
        | _ => s
        end
      else s
  | EmptyString => s
  end.

(** [getJobDaysAhead(job)].  The calendar step ([new Date(dateStr)], the
    Mountain-time day difference and [Math.ceil]) is the parameter
    [calDays], [None] when the date does not parse ([isNaN]). *)
Definition getJobDaysAhead (calDays : string -> option Z) (job : Job) : Z :=
  match date job with
  | JStr s =>
      if String.eqb s "" || String.eqb s "N/A" then -1
      else match calDays (stripDayName s) with
           | Some d => d
           | None => -1
           end
  | _ => -1                                   (* [!dateStr] *)
  end.

(** *** Scraper statistics ([initStats], [recordCheck], [recordError]) *)

Record CurrentStatus : Type := mkCurrent {
  isRunning : bool;
  lastCheckTime : option string;
  lastCheckDurationMs : Z;
  browserHealthy : bool;
  upSince : string
}.

(** [todayStats]; the two uncertain counters may be absent in a file
    written by an older version ([None]). *)
Record TodayStats : Type := mkToday {
  t_date : string;
  totalChecks : Z;
  totalJobsSeen : Z;
  totalJobsMatched : Z;
  totalJobsNotified : Z;
  totalUncertainMatched : option Z;
  totalUncertainNotified : option Z;
  totalErrors : Z
}.

Record BookingActions : Type := mkActions {
  ba_booked : Z; ba_ignored : Z; ba_expired : Z; ba_failed : Z;
  ba_autoBooked : Z; ba_uncertainBooked : Z; ba_uncertainIgnored : Z;
  ba_uncertainExpired : Z
}.

Definition zeroActions : BookingActions := mkActions 0 0 0 0 0 0 0 0.

(** An archived day; [None] for [bookingActions] is the empty object. *)
Record HistoryEntry : Type := mkHistory {
  h_date : string;
  h_totalChecks : Z;
  h_totalJobsSeen : Z;
  h_totalJobsMatched : Z;
  h_totalJobsNotified : Z;
  h_totalUncertainMatched : Z;
  h_totalErrors : Z;
  h_bookingActions : option BookingActions
}.

(** An element of [recentChecks] ([error] is always [null]). *)
Record CheckRecord : Type := mkCheck {
  c_timestamp : string;
  c_jobsSeen : Z;
  c_jobsMatched : Z;
  c_jobsNotified : Z;
  c_uncertainMatched : Z;
  c_durationMs : Z
}.

Record ErrorRecord : Type := mkErr {
  er_timestamp : string;
  er_message : string;
  er_recovered : bool
}.

Record ScraperStats : Type := mkStats {
  currentStatus : CurrentStatus;
  todayStats : TodayStats;
  bookingActions : option BookingActions;
  recentChecks : list CheckRecord;
  recentErrors : list ErrorRecord;
  history : list HistoryEntry
}.

(** [{ ...result, durationMs }] as passed to [recordCheck]. *)
Record CycleResult : Type := mkCycle {
  jobsSeen : Z;
  jobsMatched : Z;
  jobsNotified : Z;
  uncertainMatched : Z;
  uncertainNotified : Z;
  durationMs : Z
}.

(** [x || 0] on a counter. *)
Definition orZero (o : option Z) : Z :=
  match o with Some x => x | None => 0 end.

(** [while (xs.length > n) xs.shift()] *)
Definition keepLast {A} (n : nat) (xs : list A) : list A :=
  skipn (length xs - n) xs.

(** [iso.split('T')[0]] *)
Fixpoint isoDay (iso : string) : string :=
  match iso with
  | EmptyString => EmptyString
  | String c s => if Ascii.eqb c "T" then EmptyString else String c (isoDay s)
  end.

(** The history record both archiving sites build from a day's stats. *)
Definition archiveDay (t : TodayStats) (ba : option BookingActions) : HistoryEntry :=
  {| h_date := t_date t; h_totalChecks := totalChecks t;
     h_totalJobsSeen := totalJobsSeen t; h_totalJobsMatched := totalJobsMatched t;
     h_totalJobsNotified := totalJobsNotified t;
     h_totalUncertainMatched := orZero (totalUncertainMatched t);
     h_totalErrors := totalErrors t; h_bookingActions := ba |}.

(** [initStats(existing)]; [nowIso] is the [new Date().toISOString()]
    reading and [daemonStartTime] the module-level constant.  [existing] is
    [null] or a stats object as [writeScraperStats] writes it. *)
Definition initStats (nowIso daemonStartTime : string)
    (existing : option ScraperStats) : ScraperStats :=
  let today := isoDay nowIso in
  let fresh rc re hist :=
    {| currentStatus := mkCurrent true None 0 true daemonStartTime;
       todayStats := mkToday today 0 0 0 0 (Some 0) (Some 0) 0;
       bookingActions := Some zeroActions;
       recentChecks := rc; recentErrors := re; history := hist |} in
  match existing with
  | Some ex =>
      if String.eqb (t_date (todayStats ex)) today then
        {| currentStatus :=
             {| isRunning := true;
                lastCheckTime := lastCheckTime (currentStatus ex);
                lastCheckDurationMs := lastCheckDurationMs (currentStatus ex);
                browserHealthy := browserHealthy (currentStatus ex);
                upSince := daemonStartTime |};
           todayStats := todayStats ex;
           bookingActions :=
             Some (match bookingActions ex with Some b => b | None => zeroActions end);
           recentChecks := recentChecks ex; recentErrors := recentErrors ex;
           history := history ex |}
      else
        fresh (recentChecks ex) (recentErrors ex)
          (keepLast 14 (history ex ++ [archiveDay (todayStats ex) (bookingActions ex)])%list)
  | None => fresh [] [] []
  end.

(** [recordCheck(stats, result)]; [iso1], [iso2], [iso3] are its three
    [new Date().toISOString()] readings, in order. *)
Definition recordCheck (iso1 iso2 iso3 : string) (stats : ScraperStats)
    (result : CycleResult) : ScraperStats :=
  let t := todayStats stats in
  let t1 := {| t_date := t_date t;
               totalChecks := totalChecks t + 1;
               totalJobsSeen := totalJobsSeen t + jobsSeen result;
               totalJobsMatched := totalJobsMatched t + jobsMatched result;
               totalJobsNotified := totalJobsNotified t + jobsNotified result;
               totalUncertainMatched :=
                 Some (orZero (totalUncertainMatched t) + uncertainMatched result);
               totalUncertainNotified :=
                 Some (orZero (totalUncertainNotified t) + uncertainNotified result);
               totalErrors := totalErrors t |} in
  let cs := {| isRunning := isRunning (currentStatus stats);
               lastCheckTime := Some iso1;
               lastCheckDurationMs := durationMs result;
               browserHealthy := browserHealthy (currentStatus stats);
               upSince := upSince (currentStatus stats) |} in
  let rc := keepLast 100
              (recentChecks stats ++
               [mkCheck iso2 (jobsSeen result) (jobsMatched result)
                  (jobsNotified result) (uncertainMatched result) (durationMs result)])%list in
  let today := isoDay iso3 in
  if String.eqb (t_date t1) today then
    {| currentStatus := cs; todayStats := t1; bookingActions := bookingActions stats;
       recentChecks := rc; recentErrors := recentErrors stats; history := history stats |}
  else
    {| currentStatus := cs;
       todayStats := mkToday today 1 (jobsSeen result) (jobsMatched result)
                       (jobsNotified result) (Some (uncertainMatched result))
                       (Some (uncertainNotified result)) 0;
       bookingActions := Some zeroActions;
       recentChecks := rc; recentErrors := recentErrors stats;
       history := keepLast 14 (history stats ++ [archiveDay t1 (bookingActions stats)])%list |}.

(** [recordError(stats, errorMessage, recovered)]; [iso] is its
    [new Date().toISOString()] reading. *)
Definition recordError (iso : string) (stats : ScraperStats) (errorMessage : string)
    (recovered : bool) : ScraperStats :=
  let t := todayStats stats in
  {| currentStatus := currentStatus stats;
     todayStats := {| t_date := t_date t; totalChecks := totalChecks t;
                      totalJobsSeen := totalJobsSeen t;
                      totalJobsMatched := totalJobsMatched t;
                      totalJobsNotified := totalJobsNotified t;
                      totalUncertainMatched := totalUncertainMatched t;
                      totalUncertainNotified := totalUncertainNotified t;
                      totalErrors := totalErrors t + 1 |};
     bookingActions := bookingActions stats;
     recentChecks := recentChecks stats;
     recentErrors := keepLast 20 (recentErrors stats ++ [mkErr iso errorMessage recovered])%list;
     history := history stats |}.

(** *** The inner scrape loop of [main] *)

Definition MAX_CONSECUTIVE_ERRORS : nat := 5.

(** What one pass of the inner [while] loop meets, in the order it checks:
    a shutdown request, the two-hour restart interval, off-hours, or a
    cycle ([refreshPage], re-login and [performScrapeFilterNotify]) that
    returns or throws. *)
Inductive Tick : Type :=
| TickShutdown
| TickRestartDue
| TickOffHours
| TickCycleOk
| TickCycleThrows (msg : string).

Inductive LoopExit : Type :=
| ExitShutdown
| ExitRestartDue
| ExitTooManyErrors.

(** The inner loop from a given [consecutiveErrors]: the [recordError]
    calls it makes (message and [recovered] flag) and how it leaves, [None]
    while it is still running when the ticks run out. *)
Fixpoint innerLoop (consecutiveErrors : nat) (ticks : list Tick)
    : list (string * bool) * option LoopExit :=
  match ticks with
  | [] => ([], None)
  | TickShutdown :: _ => ([], Some ExitShutdown)
  | TickRestartDue :: _ => ([], Some ExitRestartDue)
  | TickOffHours :: ts => innerLoop consecutiveErrors ts      (* [continue] *)
  | TickCycleOk :: ts => innerLoop O ts
  | TickCycleThrows m :: ts =>
      let c := S consecutiveErrors in
      let r := (m, Nat.ltb c MAX_CONSECUTIVE_ERRORS) in
      if Nat.leb MAX_CONSECUTIVE_ERRORS c then ([r], Some ExitTooManyErrors)
      else let '(rs, ex) := innerLoop c ts in (r :: rs, ex)
  end.

End Daemon.

(* ================================================================== *)
(** ** Housekeeping and Telegram helpers ([utils.mjs], [notify.mjs]) *)

Module Utils.

(** [s.endsWith(suffix)] *)
Definition endsWith (s suffix : string) : bool :=
  (String.length suffix <=? String.length s)%nat &&
  String.eqb (substring (String.length s - String.length suffix)
                        (String.length suffix) s) suffix.

(** The directory loop of [cleanupOldDebugFiles]: each file name with the
    [mtimeMs] its [stat] returns, or [None] when [stat] or [unlink] throws,
    which the [catch] around the whole loop ends.  Returns the names
    unlinked, in order. *)
Fixpoint cleanupLoop (cutoffTime : Z) (files : list (string * option Z)) : list string :=
  match files with
  | [] => []
  | (file, st) :: rest =>
      if (endsWith file ".png" || endsWith file ".html") && negb (String.eqb file ".gitkeep")
      then match st with
           | None => []
           | Some mtimeMs =>
               if mtimeMs <? cutoffTime then file :: cleanupLoop cutoffTime rest
               else cleanupLoop cutoffTime rest
           end
      else cleanupLoop cutoffTime rest
  end.

(** [cleanupOldDebugFiles(maxAgeDays)] at [Date.now() = now]; [files] is
    [None] when [readdir] throws. *)
Definition cleanupOldDebugFiles (maxAgeDays now : Z)
    (files : option (list (string * option Z))) : list string :=
  let cutoffTime := now - maxAgeDays * 24 * 60 * 60 * 1000 in
  match files with
  | Some fs => cleanupLoop cutoffTime fs
  | None => []
  end.

(** The [callback_data] of the two inline buttons of
    [sendJobNotificationWithKeyboard]: [`book:${jobHash}`] and
    [`ignore:${jobHash}`]. *)
Definition keyboardCallbackData (jobHash : string) : list string :=
  ["book:" ++ jobHash; "ignore:" ++ jobHash].

End Utils.

(* ================================================================== *)
(** ** Properties stated over the embedding *)

Module Props.
Import Daemon.

(** The lifecycle relation of the spec:
    notified -> {book_requested, ignored, expired};
    book_requested -> booking; booking -> {booked, failed}. *)
Definition transition (a b : Status) : bool :=
  match a, b with
  | notified, (book_requested | ignored | expired) => true
  | book_requested, booking => true
  | booking, (booked | failed) => true
  | _, _ => false
  end.

Definition terminal (s : Status) : bool :=
  match s with
  | booked | failed | ignored | expired => true
  | _ => false
  end.

(** A status change is legal: it follows [transition] and does not leave a
    terminal state. *)
Definition legalEvent (ev : Event) : Prop :=
  match ev with
  | EvStatus _ a b => transition a b = true /\ terminal a = false
  | _ => True
  end.

(** Every run of [m] only appends events to the trace, and every status
    change among them is legal. *)
Definition legalChanges {A} (m : M A) : Prop :=
  forall w, exists new, trace (snd (m w)) = (new ++ trace w)%list /\ Forall legalEvent new.

(** The result of every run of [m] satisfies [P]. *)
Definition yields {A} (m : M A) (P : A -> Prop) : Prop :=
  forall w, P (fst (m w)).

(** The JSON file holds each fingerprint at most once. *)
Definition diskKeysNoDup (d : Disk) : Prop :=
  match d with
  | None => True
  | Some raw => NoDup (map fst raw)
  end.

(** The two [Date.now()] readings taken one after the other from [c]. *)
Definition readings2 (c : list Z) : Z * Z :=
  match c with
  | [] => (0, 0)
  | [t] => (t, t)
  | t1 :: t2 :: _ => (t1, t2)
  end.

(** Telegram update ids increase along the server's queue. *)
Fixpoint idsIncreasing (us : list Update) : bool :=
  match us with
  | u1 :: ((u2 :: _) as rest) => (update_id u1 <? update_id u2) && idsIncreasing rest
  | _ => true
  end.

(** Every booking call happens while the file records the entry as
    [booking]. *)
Definition bookingDurableAtCalls (tr : list Event) : Prop :=
  forall h d, In (EvBookCall h d) tr ->
    exists e, d = Some (Rec e) /\ status e = booking.

(** The Telegram cursor and queue are untouched by a run of [m]. *)
Definition keepsCursor {A} (m : M A) : Prop :=
  forall w, lastUpdateOffset (snd (m w)) = lastUpdateOffset w /\
            tgUpdates (snd (m w)) = tgUpdates w.

(** The store part of the dispatch loop's accumulator. *)
Definition accStore (acc : Store * nat * nat) : Store := fst (fst acc).

(** Update ids in increasing order. *)
Definition idLt (a b : Update) : Prop := update_id a < update_id b.


(** Every run of [m] only appends events to the trace, each satisfying [P]. *)
Definition traceAdds {A} (P : Event -> Prop) (m : M A) : Prop :=
  forall w, exists new, trace (snd (m w)) = (new ++ trace w)%list /\ Forall P new.

(** An event that is not a Telegram notification. *)
Definition notSend (ev : Event) : Prop :=
  match ev with EvSend _ _ => False | _ => True end.

(** The string has no [':'] (an md5 hex digest has none). *)
Definition noColon (s : string) : bool :=
  forallb (fun c => negb (Ascii.eqb c ":")) (list_ascii_of_string s).

(** [jobData?.jobNumber] is a non-empty string (what [bookJobOnPage]
    requires before it touches the page). *)
Definition hasJobNumber (e : Entry) : bool :=
  match option_map jobNumber (jobData e) with
  | Some (JStr n) => negb (String.eqb n "")
  | _ => false
  end.

(** The status [executePendingBookings] gives a [book_requested] entry when
    the page's next answer is the head of [oracle]. *)
Definition bookingOutcome (e : Entry) (oracle : list BookResult) : Status :=
  if hasJobNumber e then
    match oracle with BookSuccess :: _ => booked | _ => failed end
  else failed.


(** How one pass of [executePendingBookings] may change an entry: a
    [book_requested] entry ends [booked] or [failed], any other is kept. *)
Definition execRel (e e' : Entry) : Prop :=
  if status_eqb (status e) book_requested
  then e' = withStatus e booked \/ e' = withStatus e failed
  else e' = e.

(** How [expireOldNotifications] at time [now] changes an entry. *)
Definition expireRel (now : Z) (e e' : Entry) : Prop :=
  e' = if status_eqb (status e) notified && pastExpiry now e then withStatus e expired else e.

(** What the dispatch loop has added so far to the store [st0] it started
    from, for the matches [ms]. *)
Definition dispatchInv (md5 : string -> string) (ms : list (Job * Filters.FilterResult))
    (st0 : Store) (acc : Store * nat * nat) : Prop :=
  let '(st, n, a) := acc in
  exists added, st = (st0 ++ added)%list /\ length added = n /\ (a <= n)%nat /\
    forall h e, In (h, e) added ->
      exists job fr, In (job, fr) ms /\ h = createJobHash md5 job /\ jobData e = Some job /\
        (status e = book_requested /\ autoBooked e = true \/
         status e = notified /\ e_uncertain e = Filters.uncertain fr).

(** What the callback processor may have done to the store [st0] so far. *)
Definition callbackInv (st0 st : Store) : Prop :=
  keys st = keys st0 /\
  forall h e, lookup h st0 = Some e ->
    exists e', lookup h st = Some e' /\
      (e' = e \/ status e = notified /\
                 (e' = withStatus e book_requested \/ e' = withStatus e ignored)).

(** The number of passes of the inner loop whose cycle throws. *)
Fixpoint countThrows (ts : list Tick) : nat :=
  match ts with
  | [] => O
  | TickCycleThrows _ :: ts' => S (countThrows ts')
  | _ :: ts' => countThrows ts'
  end.

(** Every recorded error is marked [recovered]. *)
Definition recoveredAll (rs : list (string * bool)) : Prop :=
  Forall (fun r => snd r = true) rs.

(** The property names a plain JavaScript object inherits from
    [Object.prototype]: [notifiedJobs[h]] is defined for them even when
    the store has no entry [h]. *)
Definition objectPrototypeNames : list string :=
  ["constructor"; "__defineGetter__"; "__defineSetter__"; "hasOwnProperty";
   "__lookupGetter__"; "__lookupSetter__"; "isPrototypeOf";
   "propertyIsEnumerable"; "toString"; "valueOf"; "__proto__"; "toLocaleString"].

(** The file-name test of [cleanupOldDebugFiles]. *)
Definition debugFileName (f : string) : bool :=
  (Utils.endsWith f ".png" || Utils.endsWith f ".html") && negb (String.eqb f ".gitkeep").

End Props.

(* ================================================================== *)
(** ** Concrete inputs used by the witnesses and counterexamples *)

Definition certainJob : Job :=
  strJob "Wed, 2/25/2026" "Timpanogos High School" "US History" "Full Day".

Definition certainResult : Filters.FilterResult :=
  Filters.mkResult true "All criteria met: Timpanogos High School - US History - Full Day" false.

Definition notifiedEntry : Entry :=
  {| status := notified; timestamp := 1000; expiresAt := Some 301000;
     telegramMessageId := Some 42; jobData := Some certainJob;
     e_uncertain := false; autoBooked := false |}.

Definition stuckEntry : Entry :=
  {| status := booking; timestamp := 1000; expiresAt := Some 301000;
     telegramMessageId := Some 42;
     jobData := Some (strJob "Wed, 2/25/2026" "Timpanogos High School" "US History" "Full Day");
     e_uncertain := false; autoBooked := false |}.

Definition crashedWorld : World :=
  {| disk := Some [("a1"%string, Legacy 500); ("b2"%string, Rec stuckEntry)];
     lastUpdateOffset := 0; tgUpdates := []; bookOracle := []; sendOracle := [];
     clock := [2000]; trace := [] |}.

Definition freshWorld : World :=
  {| disk := Some []; lastUpdateOffset := 0; tgUpdates := [];
     bookOracle := []; sendOracle := [SendOk (Some 7); SendOk (Some 8)];
     clock := [1000]; trace := [] |}.

Definition sendFailsWorld : World :=
  {| disk := Some []; lastUpdateOffset := 0; tgUpdates := [];
     bookOracle := []; sendOracle := [SendThrows]; clock := [1000]; trace := [] |}.

Definition oddQueryWorld : World :=
  {| disk := Some [("h"%string, Rec notifiedEntry)]; lastUpdateOffset := 4;
     tgUpdates := [mkUpdate 3 None;
                   mkUpdate 5 (Some (mkQuery "q9" (JStr "cancel:h")))];
     bookOracle := []; sendOracle := []; clock := [2000]; trace := [] |}.

Definition bookPressedWorld : World :=
  {| disk := Some [("h"%string, Rec notifiedEntry)]; lastUpdateOffset := 0;
     tgUpdates := [mkUpdate 5 (Some (mkQuery "q1" (JStr "book:h")))];
     bookOracle := [BookSuccess]; sendOracle := []; clock := [2000]; trace := [] |}.

Definition autoBookWorld : World :=
  {| disk := Some []; lastUpdateOffset := 0; tgUpdates := [];
     bookOracle := [BookSuccess]; sendOracle := [SendOk (Some 7)];
     clock := [2000]; trace := [] |}.

(** A job object without a [school] field. *)
Definition schoolessJob : Job :=
  {| teacher := JStr "N/A"; position := JStr "US History";
     reportTo := JStr "N/A"; jobNumber := JStr "123";
     date := JStr "Wed, 2/25/2026"; startTime := JStr "N/A";
     endTime := JStr "N/A"; duration := JStr "Full Day";
     school := JUndef; isMultiDay := false; days := [] |}.

(** An entry the user asked to book, with a job number on the page. *)
Definition requestedEntry : Entry :=
  {| status := book_requested; timestamp := 1000; expiresAt := Some 301000;
     telegramMessageId := Some 42;
     jobData := Some {| teacher := JStr "N/A"; position := JStr "US History";
                        reportTo := JStr "N/A"; jobNumber := JStr "123";
                        date := JStr "Wed, 2/25/2026"; startTime := JStr "N/A";
                        endTime := JStr "N/A"; duration := JStr "Full Day";
                        school := JStr "Timpanogos High School";
                        isMultiDay := false; days := [] |};
     e_uncertain := false; autoBooked := false |}.

Definition lateWorld : World :=
  {| disk := Some []; lastUpdateOffset := 0; tgUpdates := [];
     bookOracle := [BookSuccess]; sendOracle := [];
     clock := [400000]; trace := [] |}.

Definition sampleStats : Daemon.ScraperStats :=
  {| Daemon.currentStatus :=
       Daemon.mkCurrent true (Some "2026-02-25T09:00:00.000Z") 1200 true
         "2026-02-25T05:00:00.000Z";
     Daemon.todayStats := Daemon.mkToday "2026-02-25" 40 400 12 3 (Some 2) (Some 1) 1;
     Daemon.bookingActions := Some (Daemon.mkActions 1 0 0 0 1 0 0 0);
     Daemon.recentChecks := [Daemon.mkCheck "2026-02-25T09:00:00.000Z" 10 1 0 0 1200];
     Daemon.recentErrors := [];
     Daemon.history := [] |}.

Definition sampleCycle : Daemon.CycleResult := Daemon.mkCycle 10 2 1 1 0 1500.

(** A debug directory listing: names with their [mtimeMs]. *)
Definition debugDir : list (string * option Z) :=
  [("old.png"%string, Some 0); ("new.png"%string, Some 300000000);
   ("notes.txt"%string, Some 0); ("old.html"%string, Some 5)].

(* ================================================================== *)
(** ** Classifier facts *)

Module ClassifierFacts.
Import Filters.

Lemma blacklisted_str s : exists b, isSchoolBlacklisted (JStr s) = Ok b.
Proof. eexists. reflexivity. Qed.

Lemma nearby_str s : exists b, isSchoolNearby (JStr s) = Ok b.
Proof. eexists. reflexivity. Qed.

Lemma level_str s : exists b, isSchoolLevelAccepted (JStr s) = Ok b.
Proof.
  unfold isSchoolLevelAccepted; cbn [ebind toLowerCase].
  destruct (includesAny _ REJECTED_SCHOOL_LEVELS); [eauto|].
  destruct (includesAny _ ACCEPTED_SCHOOL_LEVELS); eauto.
Qed.

Lemma duration_str s : exists b, isDurationAccepted (JStr s) = Ok b.
Proof.
  unfold isDurationAccepted; cbn [ebind toLowerCase].
  destruct (includesAny _ REJECTED_DURATIONS); [eauto|].
  destruct (includesAny _ ACCEPTED_DURATIONS); eauto.
Qed.

Lemma subject_str s : exists v, isSubjectAccepted (JStr s) = Ok v.
Proof.
  unfold isSubjectAccepted; cbn [ebind toLowerCase].
  destruct (includesAny _ REJECTED_SUBJECTS); [eauto|].
  destruct (includesAny _ ACCEPTED_SUBJECTS); eauto.
Qed.

(** On a classifiable job every axis returns a value. *)
Lemma axes_ok j :
  classifiable j = true ->
  exists bl lvl fd subj nb,
    isSchoolBlacklisted (school j) = Ok bl /\
    isSchoolLevelAccepted (school j) = Ok lvl /\
    isDurationAccepted (duration j) = Ok fd /\
    isSubjectAccepted (position j) = Ok subj /\
    isSchoolNearby (school j) = Ok nb.
Proof.
  destruct j as [? p ? ? ? ? ? du sc ? ?]; cbn [classifiable school position duration].
  destruct sc as [| |sc]; try discriminate;
  destruct p as [| |p]; try discriminate;
  destruct du as [| |du]; try discriminate; intros _.
  destruct (blacklisted_str sc) as [bl Hbl], (level_str sc) as [lvl Hlvl],
    (duration_str du) as [fd Hfd], (subject_str p) as [subj Hsubj],
    (nearby_str sc) as [nb Hnb].
  exists bl, lvl, fd, subj, nb. auto.
Qed.

End ClassifierFacts.

(* ================================================================== *)
(** ** Claims about the classifier and the fingerprint *)

(** Claim C1: for a job at a blacklisted school, [filterJob] returns a
    match exactly when the duration is full-day and the subject axis is
    ACCEPT or UNCERTAIN, and that match is uncertain; otherwise it rejects. *)
Theorem blacklisted_school_classification (j : Job)
  (Hc : classifiable j = true)
  (Hb : Filters.isSchoolBlacklisted (school j) = Ok true) :
  exists r, Filters.filterJob j = Ok r /\
    (Filters.match_ r = true <->
       Filters.isDurationAccepted (duration j) = Ok true /\
       (Filters.isSubjectAccepted (position j) = Ok Filters.ACCEPT \/
        Filters.isSubjectAccepted (position j) = Ok Filters.UNCERTAIN)) /\
    (Filters.match_ r = true -> Filters.uncertain r = true).
Proof.
  destruct (ClassifierFacts.axes_ok j Hc)
    as (bl & lvl & fd & subj & nb & _ & E2 & E3 & E4 & E5).
  unfold Filters.filterJob. rewrite Hb, E2, E3, E4, E5. cbn [ebind].
  destruct lvl, fd, subj, nb; cbn; eexists; (split; [reflexivity|]); cbn;
    intuition congruence.
Qed.

Lemma blacklisted_school_classification_witness :
  classifiable (strJob "Wed, 2/25/2026" "Westlake High School" "US History" "Full Day") = true /\
  Filters.isSchoolBlacklisted (JStr "Westlake High School") = Ok true /\
  exists r, Filters.filterJob (strJob "Wed, 2/25/2026" "Westlake High School" "US History" "Full Day") = Ok r /\
    (Filters.match_ r = true <->
       Filters.isDurationAccepted (JStr "Full Day") = Ok true /\
       (Filters.isSubjectAccepted (JStr "US History") = Ok Filters.ACCEPT \/
        Filters.isSubjectAccepted (JStr "US History") = Ok Filters.UNCERTAIN)) /\
    (Filters.match_ r = true -> Filters.uncertain r = true).
Proof.
  split; [reflexivity|]. split; [vm_compute; reflexivity|].
  apply (blacklisted_school_classification
           (strJob "Wed, 2/25/2026" "Westlake High School" "US History" "Full Day")).
  - reflexivity.
  - vm_compute; reflexivity.
Defined.

(** Claim C4: for a half-day job (duration not accepted) at an
    accepted-level, non-blacklisted school, [filterJob] matches exactly
    when the school is nearby and the subject axis is ACCEPT, and the match
    is uncertain; otherwise it rejects. *)
Theorem half_day_nearby_classification (j : Job)
  (Hc : classifiable j = true)
  (Hlvl : Filters.isSchoolLevelAccepted (school j) = Ok true)
  (Hnb : Filters.isSchoolBlacklisted (school j) = Ok false)
  (Hhalf : Filters.isDurationAccepted (duration j) = Ok false) :
  exists r, Filters.filterJob j = Ok r /\
    (Filters.match_ r = true <->
       Filters.isSchoolNearby (school j) = Ok true /\
       Filters.isSubjectAccepted (position j) = Ok Filters.ACCEPT) /\
    (Filters.match_ r = true -> Filters.uncertain r = true).
Proof.
  destruct (ClassifierFacts.axes_ok j Hc)
    as (bl & lvl & fd & subj & nb & _ & _ & _ & E4 & E5).
  unfold Filters.filterJob. rewrite Hnb, Hlvl, Hhalf, E4, E5. cbn [ebind].
  destruct subj, nb; cbn; eexists; (split; [reflexivity|]); cbn;
    intuition congruence.
Qed.

Lemma half_day_nearby_classification_witness :
  classifiable (strJob "Wed, 2/25/2026" "Timpanogos High School" "US History" "Half Day AM") = true /\
  Filters.isSchoolLevelAccepted (JStr "Timpanogos High School") = Ok true /\
  Filters.isSchoolBlacklisted (JStr "Timpanogos High School") = Ok false /\
  Filters.isDurationAccepted (JStr "Half Day AM") = Ok false /\
  exists r, Filters.filterJob (strJob "Wed, 2/25/2026" "Timpanogos High School" "US History" "Half Day AM") = Ok r /\
    (Filters.match_ r = true <->
       Filters.isSchoolNearby (JStr "Timpanogos High School") = Ok true /\
       Filters.isSubjectAccepted (JStr "US History") = Ok Filters.ACCEPT) /\
    (Filters.match_ r = true -> Filters.uncertain r = true).
Proof.
  split; [reflexivity|]. split; [vm_compute; reflexivity|].
  split; [vm_compute; reflexivity|]. split; [vm_compute; reflexivity|].
  apply (half_day_nearby_classification
           (strJob "Wed, 2/25/2026" "Timpanogos High School" "US History" "Half Day AM"));
    vm_compute; reflexivity.
Defined.

(** Claim C8 (counterexample): a job object without a [school] field makes
    [filterJob] throw a TypeError instead of returning a result object. *)
Lemma filterJob_throws_on_missing_school :
  exists e,
    Filters.filterJob
      {| teacher := JStr "N/A"; position := JStr "US History";
         reportTo := JStr "N/A"; jobNumber := JStr "123";
         date := JStr "Wed, 2/25/2026"; startTime := JStr "N/A";
         endTime := JStr "N/A"; duration := JStr "Full Day";
         school := JUndef; isMultiDay := false; days := [] |} = Throw e.
Proof. eexists. reflexivity. Qed.

(** Claim C8 (amended): [filterJob] returns a result object, without
    throwing, exactly for the jobs whose [school], [position] and
    [duration] are strings (any string, e.g. the scraper's sentinel
    ['N/A']); if one of them is missing or [null] it throws a TypeError
    (from [toLowerCase]). *)
Theorem filterJob_total_on_string_fields (j : Job) :
  ((exists r, Filters.filterJob j = Ok r) <-> classifiable j = true) /\
  (classifiable j = false -> exists msg, Filters.filterJob j = Throw (TypeError msg)).
Proof.
  split; [split|].
  - intros [r Hr]. revert Hr.
    destruct j as [? p ? ? ? ? ? du sc ? ?]; cbn [classifiable school position duration].
    destruct sc as [| |sc], p as [| |p], du as [| |du]; try reflexivity;
      unfold Filters.filterJob, Filters.isSchoolBlacklisted,
        Filters.isSchoolLevelAccepted, Filters.isDurationAccepted,
        Filters.isSubjectAccepted, Filters.isSchoolNearby;
      cbn [ebind toLowerCase school position duration];
      repeat match goal with
             | |- context [includesAny ?a ?b] => destruct (includesAny a b)
             end; cbn [ebind]; discriminate.
  - intros Hc.
    destruct (ClassifierFacts.axes_ok j Hc)
      as (bl & lvl & fd & subj & nb & E1 & E2 & E3 & E4 & E5).
    unfold Filters.filterJob. rewrite E1, E2, E3, E4, E5. cbn [ebind].
    destruct bl, lvl, fd, subj, nb; eexists; reflexivity.
  - destruct j as [? p ? ? ? ? ? du sc ? ?]; cbn [classifiable school position duration].
    destruct sc as [| |sc], p as [| |p], du as [| |du]; try discriminate; intros _;
      unfold Filters.filterJob, Filters.isSchoolBlacklisted,
        Filters.isSchoolLevelAccepted, Filters.isDurationAccepted,
        Filters.isSubjectAccepted, Filters.isSchoolNearby;
      cbn [ebind toLowerCase school position duration];
      repeat match goal with
             | |- context [includesAny ?a ?b] => destruct (includesAny a b)
             end; cbn [ebind]; eexists; reflexivity.
Qed.

Lemma lowerStr_app (a b : string) : lowerStr (a ++ b) = lowerStr a ++ lowerStr b.
Proof. induction a as [|c a IH]; cbn; [reflexivity | now rewrite IH]. Qed.

(** Claim C9: [createJobHash] is a function of the lower-cased [date],
    [school] and [position] only: two jobs that agree on those three
    fields up to letter case get the same fingerprint, whatever their
    other fields and whatever the digest function. *)
Theorem createJobHash_depends_on_identity (md5 : string -> string) (j1 j2 : Job)
  (Hd : lowerStr (jsToString (date j1)) = lowerStr (jsToString (date j2)))
  (Hs : lowerStr (jsToString (school j1)) = lowerStr (jsToString (school j2)))
  (Hp : lowerStr (jsToString (position j1)) = lowerStr (jsToString (position j2))) :
  createJobHash md5 j1 = createJobHash md5 j2.
Proof.
  unfold createJobHash. rewrite !lowerStr_app, Hd, Hs, Hp. reflexivity.
Qed.

Lemma createJobHash_depends_on_identity_witness :
  lowerStr "Wed, 2/25/2026" = lowerStr "WED, 2/25/2026" /\
  lowerStr "Timpanogos High School" = lowerStr "TIMPANOGOS high school" /\
  lowerStr "US History" = lowerStr "us history" /\
  createJobHash (fun s => s)
    (strJob "Wed, 2/25/2026" "Timpanogos High School" "US History" "Full Day")
  = createJobHash (fun s => s)
    {| teacher := JStr "Smith"; position := JStr "us history";
       reportTo := JStr "Office"; jobNumber := JStr "98765";
       date := JStr "WED, 2/25/2026"; startTime := JStr "8:00 AM";
       endTime := JStr "3:00 PM"; duration := JStr "Half Day PM";
       school := JStr "TIMPANOGOS high school"; isMultiDay := true; days := [] |}.
Proof.
  split; [reflexivity|]. split; [reflexivity|]. split; [reflexivity|].
  apply createJobHash_depends_on_identity; reflexivity.
Defined.

(* ================================================================== *)
(** ** Lifecycle facts *)

Module Lifecycle.
Import Daemon Props.

Lemma lookup_set_same h e st : lookup h (set h e st) = Some e.
Proof.
  induction st as [|[k e'] st IH]; cbn.
  - now rewrite String.eqb_refl.
  - destruct (String.eqb k h) eqn:E; cbn; rewrite E; auto.
Qed.

Lemma setStatus_eq st h s e :
  lookup h st = Some e ->
  setStatus st h s = (emit (EvStatus h (status e) s) ;;; ret (set h (withStatus e s) st)).
Proof. intros H. unfold setStatus. now rewrite H. Qed.

Lemma legal_ret {A} (a : A) : legalChanges (ret a).
Proof. intros w. exists []. split; [reflexivity | constructor]. Qed.

Lemma legal_bind {A B} (m : M A) (k : A -> M B) :
  legalChanges m -> (forall a, legalChanges (k a)) -> legalChanges (bind m k).
Proof.
  intros Hm Hk w. unfold bind.
  destruct (Hm w) as [n1 [E1 F1]]. destruct (m w) as [a w'] eqn:Em.
  destruct (Hk a w') as [n2 [E2 F2]].
  exists (n2 ++ n1)%list. split.
  - cbn in E1. rewrite E2, E1. apply app_assoc.
  - apply Forall_app; auto.
Qed.

Lemma legal_emit ev : legalEvent ev -> legalChanges (emit ev).
Proof. intros H w. exists [ev]. split; [reflexivity | constructor; auto]. Qed.

Lemma legal_getWorld : legalChanges getWorld.
Proof. intros w. exists []. split; [reflexivity | constructor]. Qed.

Lemma legal_putDisk d : legalChanges (putDisk d).
Proof. intros w. exists []. split; [reflexivity | constructor]. Qed.

Lemma legal_putOffset o : legalChanges (putOffset o).
Proof. intros w. exists []. split; [reflexivity | constructor]. Qed.

Lemma legal_dateNow : legalChanges dateNow.
Proof.
  intros w. exists []. split; [|constructor].
  unfold dateNow. destruct (clock w) as [|t [|t' r]]; reflexivity.
Qed.

Lemma legal_nextBookResult : legalChanges nextBookResult.
Proof.
  intros w. exists []. split; [|constructor].
  unfold nextBookResult. destruct (bookOracle w); reflexivity.
Qed.

Lemma legal_nextSendResult : legalChanges nextSendResult.
Proof.
  intros w. exists []. split; [|constructor].
  unfold nextSendResult. destruct (sendOracle w); reflexivity.
Qed.

Lemma legal_foldM {A B} (f : A -> B -> M A) (a : A) (xs : list B) :
  (forall a x, legalChanges (f a x)) -> legalChanges (foldM f a xs).
Proof.
  intros Hf. revert a. induction xs as [|x xs IH]; intros a; cbn.
  - apply legal_ret.
  - apply legal_bind; auto.
Qed.

Create HintDb legal.
#[local] Hint Resolve legal_ret legal_getWorld legal_putDisk legal_putOffset
  legal_dateNow legal_nextBookResult legal_nextSendResult : legal.

Ltac legal_auto :=
  repeat match goal with
         | |- legalChanges (bind _ _) => apply legal_bind; [|intros ?]
         | |- legalChanges (emit _) => apply legal_emit; cbn; auto
         | |- legalChanges (match ?x with _ => _ end) => destruct x
         | |- legalChanges (if ?b then _ else _) => destruct b
         | |- _ => solve [auto with legal]
         end.

Lemma legal_answerCallback id t : legalChanges (answerCallback id t).
Proof. unfold answerCallback. legal_auto. Qed.

Lemma legal_updateMessageAfterAction e what :
  legalChanges (updateMessageAfterAction e what).
Proof. unfold updateMessageAfterAction. legal_auto. Qed.

Lemma legal_bookJobOnPage h jd : legalChanges (bookJobOnPage h jd).
Proof. unfold bookJobOnPage. legal_auto. Qed.

#[local] Hint Resolve legal_answerCallback legal_updateMessageAfterAction
  legal_bookJobOnPage : legal.

(** A status change from the current status of [h] along [transition]. *)
Lemma legal_setStatus_then {A} st h s e (k : Store -> M A) :
  lookup h st = Some e -> transition (status e) s = true ->
  legalChanges (k (set h (withStatus e s) st)) ->
  legalChanges (bind (setStatus st h s) k).
Proof.
  intros Hl Ht Hk.
  assert (Hev : legalChanges (bind (emit (EvStatus h (status e) s))
                                   (fun _ => k (set h (withStatus e s) st)))).
  { apply legal_bind; [|intros; exact Hk].
    apply legal_emit. cbn. split; [exact Ht|].
    destruct (status e); cbn in Ht |- *; congruence. }
  intros w. destruct (Hev w) as [n [E F]]. exists n. split; [|exact F].
  rewrite <- E. rewrite (setStatus_eq st h s e Hl). reflexivity.
Qed.

Lemma legal_processQuery st q : legalChanges (processQuery st q).
Proof.
  unfold processQuery. destruct (queryAction q) as [action [h|]];
    [|legal_auto].
  destruct h as [|c h']; [legal_auto|].
  destruct (lookup (String c h') st) as [e|] eqn:El; [|legal_auto].
  destruct (String.eqb action "book"); [|destruct (String.eqb action "ignore")];
    [| |legal_auto];
    destruct (status e) eqn:Es; cbn [status_eqb negb];
    try solve [legal_auto];
    (eapply legal_setStatus_then; [exact El | rewrite Es; reflexivity | cbv beta; legal_auto]).
Qed.

Lemma legal_executeOne st h : legalChanges (executeOne st h).
Proof.
  unfold executeOne. destruct (lookup h st) as [e|] eqn:El; [|legal_auto].
  destruct (status e) eqn:Es; cbn [status_eqb negb]; try solve [legal_auto].
  eapply legal_setStatus_then; [exact El | rewrite Es; reflexivity |].
  cbv beta.
  apply legal_bind; [apply legal_bookJobOnPage|]. intros r.
  destruct r;
    (eapply legal_setStatus_then;
       [apply lookup_set_same | reflexivity | cbv beta; legal_auto]).
Qed.

Lemma legal_expireOne now st h : legalChanges (expireOne now st h).
Proof.
  unfold expireOne. destruct (lookup h st) as [e|] eqn:El; [|legal_auto].
  destruct (status e) eqn:Es; cbn [status_eqb andb]; try solve [legal_auto].
  destruct (pastExpiry now e); [|legal_auto].
  eapply legal_setStatus_then; [exact El | rewrite Es; reflexivity | cbv beta; legal_auto].
Qed.

Lemma legal_processCallbacks st : legalChanges (processCallbacks st).
Proof.
  unfold processCallbacks.
  apply legal_bind; [apply legal_getWorld | intros w].
  apply legal_bind; [unfold pollCallbackQueries; cbv zeta; legal_auto | intros [qs o]].
  apply legal_bind; [apply legal_putOffset | intros _].
  apply legal_foldM, legal_processQuery.
Qed.

Lemma legal_executePendingBookings st : legalChanges (executePendingBookings st).
Proof. apply legal_foldM, legal_executeOne. Qed.

Lemma legal_expireOldNotifications st : legalChanges (expireOldNotifications st).
Proof.
  unfold expireOldNotifications.
  apply legal_bind; [apply legal_dateNow | intros now].
  apply legal_foldM, legal_expireOne.
Qed.

End Lifecycle.

(** Claim C5: every status change made by the callback processor, the
    booking executor and the expiry sweeper follows notified ->
    {book_requested, ignored, expired}, book_requested -> booking,
    booking -> {booked, failed}, and never starts from a terminal status
    (booked, failed, ignored, expired). *)
Theorem status_changes_follow_lifecycle (st : Store) :
  Props.legalChanges (Daemon.processCallbacks st) /\
  Props.legalChanges (Daemon.executePendingBookings st) /\
  Props.legalChanges (Daemon.expireOldNotifications st).
Proof.
  split; [|split].
  - apply Lifecycle.legal_processCallbacks.
  - apply Lifecycle.legal_executePendingBookings.
  - apply Lifecycle.legal_expireOldNotifications.
Qed.

(* ================================================================== *)
(** ** Frame and result reasoning for the daemon's computations *)

Module Frames.
Import Daemon Props.

Lemma fst_bind {A B} (m : M A) (k : A -> M B) w :
  fst (bind m k w) = fst (k (fst (m w)) (snd (m w))).
Proof. unfold bind. now destruct (m w). Qed.

Lemma snd_bind {A B} (m : M A) (k : A -> M B) w :
  snd (bind m k w) = snd (k (fst (m w)) (snd (m w))).
Proof. unfold bind. now destruct (m w). Qed.

Lemma yields_ret {A} (a : A) (P : A -> Prop) : P a -> yields (ret a) P.
Proof. intros H w. exact H. Qed.

(** The value of a step that is not inspected does not matter. *)
Lemma yields_bind_any {A B} (m : M A) (k : A -> M B) (R : B -> Prop) :
  (forall a, yields (k a) R) -> yields (bind m k) R.
Proof. intros Hk w. rewrite fst_bind. apply Hk. Qed.

Lemma yields_foldM {A B} (f : A -> B -> M A) (Inv : A -> Prop) (xs : list B) :
  (forall a x, Inv a -> yields (f a x) Inv) ->
  forall a, Inv a -> yields (foldM f a xs) Inv.
Proof.
  intros Hf. induction xs as [|x xs IH]; intros a Ha w; cbn.
  - exact Ha.
  - rewrite fst_bind. apply IH. apply Hf, Ha.
Qed.


Lemma cursor_ret {A} (a : A) : keepsCursor (ret a).
Proof. intros w. auto. Qed.

Lemma cursor_bind {A B} (m : M A) (k : A -> M B) :
  keepsCursor m -> (forall a, keepsCursor (k a)) -> keepsCursor (bind m k).
Proof.
  intros Hm Hk w. rewrite snd_bind.
  destruct (Hk (fst (m w)) (snd (m w))) as [E1 E2]. destruct (Hm w) as [E3 E4].
  split; congruence.
Qed.

Lemma cursor_emit ev : keepsCursor (emit ev).
Proof. intros w. auto. Qed.

Lemma cursor_getWorld : keepsCursor getWorld.
Proof. intros w. auto. Qed.

Lemma cursor_dateNow : keepsCursor dateNow.
Proof. intros w. unfold dateNow. destruct (clock w) as [|t [|t' r]]; auto. Qed.

Lemma cursor_nextBookResult : keepsCursor nextBookResult.
Proof. intros w. unfold nextBookResult. destruct (bookOracle w); auto. Qed.

Lemma cursor_foldM {A B} (f : A -> B -> M A) (a : A) (xs : list B) :
  (forall a x, keepsCursor (f a x)) -> keepsCursor (foldM f a xs).
Proof.
  intros Hf. revert a. induction xs as [|x xs IH]; intros a; cbn.
  - apply cursor_ret.
  - apply cursor_bind; auto.
Qed.

Ltac cursor_auto :=
  repeat match goal with
         | |- keepsCursor (bind _ _) => apply cursor_bind; [|intros ?]
         | |- keepsCursor (match ?x with _ => _ end) => destruct x
         | |- keepsCursor (if ?b then _ else _) => destruct b
         | |- keepsCursor (ret _) => apply cursor_ret
         | |- keepsCursor (emit _) => apply cursor_emit
         | |- keepsCursor getWorld => apply cursor_getWorld
         | |- keepsCursor (setStatus _ _ _) => unfold setStatus
         | |- keepsCursor (answerCallback _ _) => unfold answerCallback
         | |- keepsCursor (updateMessageAfterAction _ _) => unfold updateMessageAfterAction
         end.

Lemma cursor_processQuery st q : keepsCursor (processQuery st q).
Proof. unfold processQuery. destruct (queryAction q). cursor_auto. Qed.

End Frames.

(* ================================================================== *)
(** ** Facts about recovery, dispatch and callback polling *)

Module DaemonFacts.
Import Daemon Props Frames.

(** *** Recovery *)

Lemma lookup_recover h st :
  lookup h (recoverStuckBookings st) =
  option_map (fun e => if status_eqb (status e) booking then withStatus e failed else e)
             (lookup h st).
Proof.
  unfold recoverStuckBookings.
  induction st as [|[k e] st IH]; cbn; [reflexivity|].
  destruct (status_eqb (status e) booking) eqn:Eb; cbn;
    destruct (String.eqb k h); cbn; rewrite ?Eb; auto.
Qed.

Lemma in_recover_not_booking h e st :
  In (h, e) (recoverStuckBookings st) -> status e <> booking.
Proof.
  unfold recoverStuckBookings. rewrite in_map_iff.
  intros [[k e0] [Heq _]].
  destruct (status e0) eqn:Es; cbn in Heq;
    injection Heq as _ <-; cbn; try rewrite Es; discriminate.
Qed.

(** *** Dispatch *)

Lemma lookup_none_not_in h st : lookup h st = None -> ~ In h (keys st).
Proof.
  unfold keys. induction st as [|[k e] st IH]; cbn; [auto|].
  destruct (String.eqb k h) eqn:E; [discriminate|].
  apply String.eqb_neq in E. intros Hl [Hk|Hin]; [congruence | exact (IH Hl Hin)].
Qed.

Lemma keys_set_new h e st : lookup h st = None -> keys (set h e st) = (keys st ++ [h])%list.
Proof.
  unfold keys. induction st as [|[k e'] st IH]; cbn; [reflexivity|].
  destruct (String.eqb k h); [discriminate|]. cbn. intros Hl. now rewrite IH.
Qed.

Lemma nodup_set_new h e st :
  lookup h st = None -> NoDup (keys st) -> NoDup (keys (set h e st)).
Proof.
  intros Hl Hnd. rewrite (keys_set_new h e st Hl).
  apply NoDup_app; auto.
  - repeat constructor; auto.
  - intros x Hx [<-|[]]. exact (lookup_none_not_in h st Hl Hx).
Qed.


Lemma dispatchOne_nodup md5 da acc m :
  NoDup (keys (accStore acc)) ->
  yields (dispatchOne md5 da acc m) (fun acc' => NoDup (keys (accStore acc'))).
Proof.
  destruct acc as [[st nNew] nAuto], m as [job fr]. cbn [accStore fst]. intros Hnd.
  unfold dispatchOne.
  destruct (lookup (createJobHash md5 job) st) eqn:El; [apply yields_ret; exact Hnd|].
  destruct (shouldAutoBook _ _);
    apply yields_bind_any; intros _; apply yields_bind_any; intros r;
    destruct r; try (apply yields_ret; exact Hnd);
    repeat (apply yields_bind_any; intros ?); apply yields_ret; cbn;
    apply nodup_set_new; assumption.
Qed.

(** *** Callback polling *)

Lemma poll_world o w : snd (pollCallbackQueries o w) = w.
Proof. unfold pollCallbackQueries. cbn. destruct (rev _) ; reflexivity. Qed.

Lemma poll_offset o w :
  snd (fst (pollCallbackQueries o w)) =
  match rev (pendingUpdates o (tgUpdates w)) with
  | [] => o
  | lastU :: _ => update_id lastU + 1
  end.
Proof. unfold pollCallbackQueries. cbn. destruct (rev _); reflexivity. Qed.

Lemma processCallbacks_cursor st w :
  lastUpdateOffset (snd (processCallbacks st w)) =
    snd (fst (pollCallbackQueries (lastUpdateOffset w) w)) /\
  tgUpdates (snd (processCallbacks st w)) = tgUpdates w.
Proof.
  unfold processCallbacks. rewrite snd_bind. cbn [getWorld fst snd].
  rewrite snd_bind, poll_world.
  destruct (fst (pollCallbackQueries (lastUpdateOffset w) w)) as [qs o'].
  cbn [snd]. rewrite snd_bind.
  destruct (cursor_foldM processQuery st qs cursor_processQuery
              (snd (putOffset o' w))) as [E1 E2].
  rewrite E1, E2. cbn. auto.
Qed.


Lemma increasing_sorted us : idsIncreasing us = true -> StronglySorted idLt us.
Proof.
  intros H. apply Sorted_StronglySorted.
  { intros x y z; unfold idLt; lia. }
  induction us as [|u1 rest IH]; [constructor|].
  destruct rest as [|u2 rest']; [repeat constructor|].
  cbn in H. apply andb_prop in H as [H1 H2].
  constructor; [exact (IH H2)|]. constructor. unfold idLt. lia.
Qed.

Lemma sorted_filter (p : Update -> bool) l :
  StronglySorted idLt l -> StronglySorted idLt (filter p l).
Proof.
  induction l as [|a l IH]; intros Hs; cbn; [constructor|].
  apply StronglySorted_inv in Hs as [Hs Hf].
  destruct (p a); [|auto]. constructor; [auto|].
  rewrite Forall_forall in Hf |- *. intros x Hx. apply filter_In in Hx. apply Hf, Hx.
Qed.

Lemma sorted_last xs y :
  StronglySorted idLt (xs ++ [y]) -> forall x, In x xs -> idLt x y.
Proof.
  induction xs as [|a xs IH]; cbn; intros Hs x Hx; [destruct Hx|].
  apply StronglySorted_inv in Hs as [Hs Hf].
  destruct Hx as [<-|Hx]; [|auto].
  rewrite Forall_forall in Hf. apply Hf, in_or_app. right; left; reflexivity.
Qed.

Lemma pending_below_last o us lastU r :
  idsIncreasing us = true ->
  rev (pendingUpdates o us) = lastU :: r ->
  forall u, In u (pendingUpdates o us) -> update_id u <= update_id lastU.
Proof.
  intros Hinc Hrev u Hu.
  assert (Hl : pendingUpdates o us = (rev r ++ [lastU])%list).
  { rewrite <- (rev_involutive (pendingUpdates o us)), Hrev. reflexivity. }
  pose proof (sorted_filter (fun u => o <=? update_id u) us (increasing_sorted us Hinc)) as Hs.
  fold (pendingUpdates o us) in Hs. rewrite Hl in Hs, Hu.
  apply in_app_or in Hu as [Hu|[<-|[]]]; [|lia].
  pose proof (sorted_last _ _ Hs u Hu). unfold idLt in *. lia.
Qed.

End DaemonFacts.

(* ================================================================== *)
(** ** Claims about recovery, dispatch and callbacks *)

(** Claim C6: the start-up pass of [main] (load, [recoverStuckBookings],
    save) turns every loaded [booking] entry into [failed], leaves no
    entry in [booking], and writes that store back before any cycle. *)
Theorem startup_recovers_stuck_bookings (w : World) :
  (forall h e, lookup h (Daemon.loadedStore (disk w)) = Some e ->
     status e = booking ->
     lookup h (fst (Daemon.startup w)) = Some (withStatus e failed)) /\
  (forall h e, In (h, e) (fst (Daemon.startup w)) -> status e <> booking) /\
  disk (snd (Daemon.startup w)) =
    Some (map (fun '(k, e) => (k, Rec e)) (fst (Daemon.startup w))).
Proof.
  assert (Hs : fst (Daemon.startup w) =
               Daemon.recoverStuckBookings (Daemon.loadedStore (disk w)))
    by reflexivity.
  rewrite Hs. split; [|split].
  - intros h e Hl Hb. rewrite DaemonFacts.lookup_recover, Hl. cbn.
    rewrite Hb. reflexivity.
  - intros h e. apply DaemonFacts.in_recover_not_booking.
  - reflexivity.
Qed.

Lemma startup_recovers_stuck_bookings_witness :
  lookup "b2" (Daemon.loadedStore (disk crashedWorld)) = Some stuckEntry /\
  status stuckEntry = booking /\
  lookup "b2" (fst (Daemon.startup crashedWorld)) = Some (withStatus stuckEntry failed).
Proof.
  split; [reflexivity|]. split; [reflexivity|].
  apply (proj1 (startup_recovers_stuck_bookings crashedWorld)); reflexivity.
Defined.

(** Claim C7: dispatching a matched job whose fingerprint already has an
    entry changes neither the store nor the world (no message, no new
    entry); and dispatching any sequence of matches, e.g. the same job
    twice, keeps at most one entry per fingerprint. *)
Theorem dispatch_never_duplicates (md5 : string -> string) (daysAheadOf : Job -> Z) :
  (forall st nNew nAuto job fr e w,
     lookup (createJobHash md5 job) st = Some e ->
     Daemon.dispatchOne md5 daysAheadOf (st, nNew, nAuto) (job, fr) w
       = ((st, nNew, nAuto), w)) /\
  (forall st ms w, NoDup (keys st) ->
     NoDup (keys (fst (fst (fst
       (foldM (Daemon.dispatchOne md5 daysAheadOf) (st, O, O) ms w)))))).
Proof.
  split.
  - intros st nNew nAuto job fr e w Hl. unfold Daemon.dispatchOne.
    rewrite Hl. reflexivity.
  - intros st ms w Hnd.
    apply (Frames.yields_foldM _ (fun acc => NoDup (keys (Props.accStore acc))));
      [intros; apply DaemonFacts.dispatchOne_nodup; assumption | exact Hnd].
Qed.

Lemma dispatch_never_duplicates_witness :
  NoDup (keys []) /\
  NoDup (keys (fst (fst (fst
    (foldM (Daemon.dispatchOne (fun s => s) (fun _ => 2)) ([], O, O)
       (match Daemon.matchJobs [certainJob; certainJob] with
        | Ok ms => ms | Throw _ => [] end) freshWorld))))).
Proof.
  split; [constructor|].
  apply (proj2 (dispatch_never_duplicates (fun s => s) (fun _ => 2))). constructor.
Defined.

(** Claim C10: a callback event whose fingerprint is in the store but whose
    action is neither [book] nor [ignore] changes nothing and is not
    answered; and the polling cursor moves past every event drained, so a
    later poll does not deliver it again. *)
Theorem unmatched_action_not_acknowledged (st : Store) (w : World) :
  (forall q action h e,
     Daemon.queryAction q = (action, Some h) -> h <> "" ->
     action <> "book" -> action <> "ignore" -> lookup h st = Some e ->
     Daemon.processQuery st q w = (st, w)) /\
  (Props.idsIncreasing (tgUpdates w) = true ->
   forall u, In u (Daemon.pendingUpdates (lastUpdateOffset w) (tgUpdates w)) ->
     update_id u < lastUpdateOffset (snd (Daemon.processCallbacks st w)) /\
     ~ In u (Daemon.pendingUpdates
               (lastUpdateOffset (snd (Daemon.processCallbacks st w)))
               (tgUpdates (snd (Daemon.processCallbacks st w))))).
Proof.
  split.
  - intros q action h e Hq Hne Hb Hi Hl. unfold Daemon.processQuery.
    rewrite Hq. destruct h as [|c h']; [congruence|]. cbv iota beta.
    rewrite Hl. apply String.eqb_neq in Hb, Hi. rewrite Hb, Hi. reflexivity.
  - intros Hinc u Hu.
    destruct (DaemonFacts.processCallbacks_cursor st w) as [Eo Et].
    rewrite Eo, Et, DaemonFacts.poll_offset.
    destruct (rev (Daemon.pendingUpdates (lastUpdateOffset w) (tgUpdates w)))
      as [|lastU r] eqn:Er.
    + apply (f_equal (@rev Update)) in Er. rewrite rev_involutive in Er.
      rewrite Er in Hu. destruct Hu.
    + pose proof (DaemonFacts.pending_below_last _ _ _ _ Hinc Er u Hu) as Hle.
      split; [lia|]. intros Hin. unfold Daemon.pendingUpdates in Hin.
      apply filter_In in Hin as [_ Hge]. apply Z.leb_le in Hge. lia.
Qed.

Lemma unmatched_action_not_acknowledged_witness :
  Daemon.queryAction (mkQuery "q9" (JStr "cancel:h")) = ("cancel"%string, Some "h"%string) /\
  lookup "h" [("h"%string, notifiedEntry)] = Some notifiedEntry /\
  Daemon.processQuery [("h"%string, notifiedEntry)] (mkQuery "q9" (JStr "cancel:h")) oddQueryWorld
    = ([("h"%string, notifiedEntry)], oddQueryWorld) /\
  (forall u, In u (Daemon.pendingUpdates 4 (tgUpdates oddQueryWorld)) ->
     update_id u < lastUpdateOffset
       (snd (Daemon.processCallbacks [("h"%string, notifiedEntry)] oddQueryWorld))).
Proof.
  split; [reflexivity|]. split; [reflexivity|]. split.
  - apply (proj1 (unmatched_action_not_acknowledged [("h"%string, notifiedEntry)] oddQueryWorld))
      with (action := "cancel"%string) (h := "h"%string) (e := notifiedEntry);
      [reflexivity | discriminate | discriminate | discriminate | reflexivity].
  - intros u Hu.
    apply (proj2 (unmatched_action_not_acknowledged [("h"%string, notifiedEntry)] oddQueryWorld));
      [reflexivity | exact Hu].
Defined.

(** Claim C3 (counterexample): a new, certain match three days ahead whose
    auto-booking notification fails to send leaves no entry at all. *)
Lemma dispatch_send_failure_creates_no_entry :
  lookup (createJobHash (fun s => s) certainJob)
    (fst (fst (fst (Daemon.dispatchOne (fun s => s) (fun _ => 3) ([], O, O)
                     (certainJob, certainResult) sendFailsWorld)))) = None.
Proof. reflexivity. Qed.

(** Claim C3 (amended): for a matched job whose fingerprint is not in the
    store, if the Telegram send succeeds the dispatcher appends one entry:
    in [book_requested] with [autoBooked = true] and no expiry exactly when
    [uncertain = false] and [daysAhead >= 3], otherwise in [notified] with
    [expiresAt] = a [Date.now()] reading taken at creation + 5 minutes;
    if the send throws, the store is left as it was. *)
Theorem dispatch_new_entry_by_eligibility (md5 : string -> string)
  (daysAheadOf : Job -> Z) (st : Store) (nNew nAuto : nat) (job : Job)
  (fr : Filters.FilterResult) (w : World)
  (Hnew : lookup (createJobHash md5 job) st = None) :
  let st' := fst (fst (fst (Daemon.dispatchOne md5 daysAheadOf (st, nNew, nAuto) (job, fr) w))) in
  let h := createJobHash md5 job in
  match sendOracle w with
  | SendOk mid :: _ =>
      keys st' = (keys st ++ [h])%list /\
      exists e, lookup h st' = Some e /\ telegramMessageId e = mid /\
        jobData e = Some job /\ timestamp e = fst (Props.readings2 (clock w)) /\
        (if negb (Filters.uncertain fr) && (3 <=? daysAheadOf job) then
           status e = book_requested /\ autoBooked e = true /\ expiresAt e = None
         else
           status e = notified /\ autoBooked e = false /\
           expiresAt e = Some (snd (Props.readings2 (clock w)) + Daemon.NOTIFICATION_EXPIRY_MS))
  | _ => st' = st
  end.
Proof.
  cbv zeta. unfold Daemon.dispatchOne. rewrite Hnew.
  unfold Daemon.shouldAutoBook, Daemon.AUTO_BOOK_MIN_DAYS_AHEAD.
  destruct (Filters.uncertain fr), (3 <=? daysAheadOf job);
    destruct (sendOracle w) as [|[mid|] rest] eqn:Es;
    cbn [negb andb]; unfold bind, emit, nextSendResult; cbn; rewrite ?Es; cbn;
    try reflexivity;
    unfold dateNow; destruct (clock w) as [|t [|t2 [|t3 r]]] eqn:Ec; cbn;
    (split; [apply DaemonFacts.keys_set_new; exact Hnew|]);
    eexists; (split; [apply Lifecycle.lookup_set_same|]); cbn; repeat split.
Qed.

Lemma dispatch_new_entry_by_eligibility_witness :
  lookup (createJobHash (fun s => s) certainJob) [] = None /\
  match sendOracle freshWorld with
  | SendOk mid :: _ =>
      exists e, lookup (createJobHash (fun s => s) certainJob)
        (fst (fst (fst (Daemon.dispatchOne (fun s => s) (fun _ => 3) ([], O, O)
                         (certainJob, certainResult) freshWorld)))) = Some e /\
      telegramMessageId e = mid /\ jobData e = Some certainJob /\
      timestamp e = fst (Props.readings2 (clock freshWorld)) /\
      (if negb (Filters.uncertain certainResult) && (3 <=? 3) then
         status e = book_requested /\ autoBooked e = true /\ expiresAt e = None
       else
         status e = notified /\ autoBooked e = false /\
         expiresAt e = Some (snd (Props.readings2 (clock freshWorld)) + Daemon.NOTIFICATION_EXPIRY_MS))
  | _ => True
  end.
Proof.
  split; [reflexivity|].
  pose proof (dispatch_new_entry_by_eligibility (fun s => s) (fun _ => 3) [] O O
                certainJob certainResult freshWorld eq_refl) as H.
  cbv zeta in H. cbn [sendOracle freshWorld] in H |- *.
  destruct H as [_ H]. exact H.
Defined.

(** Claim C2 (code defect): [executePendingBookings] sets [booking] only in
    memory; the file is first written after the booking call returns.  So
    when [bookJobOnPage] runs for an entry booked from Telegram the file
    still says [notified], and for an auto-booked job the file has no entry
    at all: a crash during the call leaves nothing in [booking] for
    [recoverStuckBookings] to find. *)
Lemma booking_status_not_persisted_before_call :
  In (EvBookCall "h" (Some (Rec notifiedEntry)))
     (trace (snd (Daemon.performScrapeFilterNotify (fun s => s) (fun _ => 0) []
                    bookPressedWorld))) /\
  In (EvBookCall (createJobHash (fun s => s) certainJob) None)
     (trace (snd (Daemon.performScrapeFilterNotify (fun s => s) (fun _ => 3)
                    [certainJob] autoBookWorld))) /\
  ~ Props.bookingDurableAtCalls
      (trace (snd (Daemon.performScrapeFilterNotify (fun s => s) (fun _ => 0) []
                     bookPressedWorld))).
Proof.
  assert (H1 : In (EvBookCall "h" (Some (Rec notifiedEntry)))
                 (trace (snd (Daemon.performScrapeFilterNotify (fun s => s) (fun _ => 0) []
                                bookPressedWorld)))).
  { vm_compute. repeat (first [left; reflexivity | right]). }
  split; [exact H1|]. split.
  - vm_compute. repeat (first [left; reflexivity | right]).
  - intros H. destruct (H _ _ H1) as [e [He Hs]].
    injection He as <-. discriminate Hs.
Qed.

(* ================================================================== *)
(** ** Helper facts for the further properties *)

Module ExtraFacts.
Import Daemon Utils Props Frames Lifecycle DaemonFacts.

Lemma lookup_set_other k h e st : k <> h -> lookup k (set h e st) = lookup k st.
Proof.
  intros Hne. induction st as [|[k' e'] st IH]; cbn.
  - destruct (String.eqb h k) eqn:E; [apply String.eqb_eq in E; congruence | reflexivity].
  - destruct (String.eqb k' h) eqn:E1; cbn.
    + apply String.eqb_eq in E1; subst k'.
      destruct (String.eqb h k) eqn:E2; [apply String.eqb_eq in E2; congruence | reflexivity].
    + destruct (String.eqb k' k); [reflexivity | exact IH].
Qed.

Lemma keys_set_existing h e st : lookup h st <> None -> keys (set h e st) = keys st.
Proof.
  unfold keys. induction st as [|[k e'] st IH]; cbn; [congruence|].
  destruct (String.eqb k h) eqn:E; cbn; intros Hl.
  - reflexivity.
  - f_equal. exact (IH Hl).
Qed.

Lemma set_new_app h e st : lookup h st = None -> set h e st = (st ++ [(h, e)])%list.
Proof.
  induction st as [|[k e'] st IH]; cbn; [reflexivity|].
  destruct (String.eqb k h); [discriminate|]. intros Hl. now rewrite IH.
Qed.

Lemma set_set h e1 e2 st : set h e2 (set h e1 st) = set h e2 st.
Proof.
  induction st as [|[k e'] st IH]; cbn.
  - now rewrite String.eqb_refl.
  - destruct (String.eqb k h) eqn:E; cbn; rewrite E; [reflexivity | now rewrite IH].
Qed.

Lemma lookup_app_some h st more e : lookup h st = Some e -> lookup h (st ++ more)%list = Some e.
Proof.
  induction st as [|[k e'] st IH]; cbn; [discriminate|].
  destruct (String.eqb k h); auto.
Qed.

Lemma in_keys_lookup h st : In h (keys st) -> exists e, lookup h st = Some e.
Proof.
  unfold keys. induction st as [|[k e'] st IH]; cbn; [intros []|].
  destruct (String.eqb k h) eqn:E; [eauto|].
  intros [<-|Hin]; [rewrite String.eqb_refl in E; discriminate | auto].
Qed.

Lemma lookup_in_keys h st e : lookup h st = Some e -> In h (keys st).
Proof.
  unfold keys. induction st as [|[k e'] st IH]; cbn; [discriminate|].
  destruct (String.eqb k h) eqn:E; [apply String.eqb_eq in E; auto | auto].
Qed.

Lemma foldM_pointwise (f : Store -> string -> M Store) (R : Entry -> Entry -> Prop) :
  (forall st h w, lookup h st = None -> fst (f st h w) = st) ->
  (forall st h e w, lookup h st = Some e ->
      keys (fst (f st h w)) = keys st /\
      (exists e', lookup h (fst (f st h w)) = Some e' /\ R e e') /\
      (forall k, k <> h -> lookup k (fst (f st h w)) = lookup k st)) ->
  forall ks st w, NoDup ks ->
    keys (fst (foldM f st ks w)) = keys st /\
    forall h e, lookup h st = Some e ->
      exists e', lookup h (fst (foldM f st ks w)) = Some e' /\
        (In h ks -> R e e') /\ (~ In h ks -> e' = e).
Proof.
  intros Hnone Hsome ks. induction ks as [|k ks IH]; intros st w Hnd; cbn.
  - split; [reflexivity|]. intros h e Hl. exists e. split; [exact Hl|]. split; [intros []|auto].
  - rewrite fst_bind. apply NoDup_cons_iff in Hnd as [Hk Hnd].
    set (st1 := fst (f st k w)). set (w1 := snd (f st k w)).
    destruct (IH st1 w1 Hnd) as [IHk IHl].
    assert (Hfr : keys st1 = keys st /\ forall h, h <> k -> lookup h st1 = lookup h st).
    { destruct (lookup k st) as [ek|] eqn:Ek.
      - destruct (Hsome st k ek w Ek) as (H1 & _ & H3). split; [exact H1|].
        intros h Hh. apply H3, Hh.
      - unfold st1. rewrite (Hnone st k w Ek). auto. }
    destruct Hfr as [Hk1 Hl1].
    split; [congruence|]. intros h e Hl.
    destruct (String.eqb h k) eqn:Ehk.
    + apply String.eqb_eq in Ehk. subst h.
      destruct (Hsome st k e w Hl) as (_ & [e' [He' HR]] & _).
      destruct (IHl k e' He') as [e'' [He'' [_ Hno]]].
      exists e''. rewrite (Hno Hk) in He'' |- *. split; [exact He''|].
      split; [intros _; exact HR | intros Hn; exfalso; apply Hn; left; reflexivity].
    + apply String.eqb_neq in Ehk.
      rewrite <- (Hl1 h Ehk) in Hl.
      destruct (IHl h e Hl) as [e'' [He'' [Hin Hno]]].
      exists e''. split; [exact He''|]. split.
      * intros [->|Hi]; [congruence | auto].
      * intros Hn. apply Hno. intros Hi. apply Hn. right; exact Hi.
Qed.

Lemma executeOne_book st h e w :
  lookup h st = Some e -> status e = book_requested ->
  fst (executeOne st h w) = set h (withStatus e (bookingOutcome e (bookOracle w))) st /\
  bookOracle (snd (executeOne st h w)) =
    (if hasJobNumber e then tl (bookOracle w) else bookOracle w).
Proof.
  intros Hl Hs.
  enough (H : exists w', executeOne st h w =
                (set h (withStatus e (bookingOutcome e (bookOracle w))) st, w') /\
              bookOracle w' = (if hasJobNumber e then tl (bookOracle w) else bookOracle w))
    by (destruct H as [w' [-> Ho]]; auto).
  unfold executeOne. rewrite Hl, Hs. cbn [status_eqb negb].
  unfold setStatus at 1. rewrite Hl.
  unfold bind at 1 2. cbn [emit ret].
  unfold setStatus. rewrite lookup_set_same.
  unfold bookingOutcome, hasJobNumber, bookJobOnPage, updateMessageAfterAction.
  destruct (jobData e) as [j|]; cbn [option_map];
    [destruct (jobNumber j) as [| |n]; [| |destruct (String.eqb n "") eqn:En]|];
    cbn [negb];
    try (destruct (bookOracle w) as [|[| why|] rest] eqn:Eo);
    unfold bind, emit, ret, getWorld, nextBookResult; cbn; rewrite ?Eo; cbn;
    destruct (editTarget e); cbn; rewrite ?set_set;
    (eexists; split; [reflexivity| cbn; rewrite ?Eo; reflexivity]).
Qed.

Lemma filterJob_by_axes j bl lvl fd subj nb :
  Filters.isSchoolBlacklisted (school j) = Ok bl ->
  Filters.isSchoolLevelAccepted (school j) = Ok lvl ->
  Filters.isDurationAccepted (duration j) = Ok fd ->
  Filters.isSubjectAccepted (position j) = Ok subj ->
  Filters.isSchoolNearby (school j) = Ok nb ->
  exists r, Filters.filterJob j = Ok r /\
    Filters.match_ r =
      negb (Filters.verdict_eqb subj Filters.REJECT) &&
      (if bl then fd else lvl && (fd || nb && Filters.verdict_eqb subj Filters.ACCEPT)) /\
    Filters.uncertain r =
      Filters.match_ r && negb (negb bl && fd && Filters.verdict_eqb subj Filters.ACCEPT).
Proof.
  intros H1 H2 H3 H4 H5. unfold Filters.filterJob. rewrite H1, H2, H3, H4, H5.
  cbn [ebind]. destruct bl, lvl, fd, subj, nb; eexists; (split; [reflexivity|]); cbn; auto.
Qed.

Lemma axes_lower s1 s2 : lowerStr s1 = lowerStr s2 ->
  Filters.isSchoolBlacklisted (JStr s1) = Filters.isSchoolBlacklisted (JStr s2) /\
  Filters.isSchoolLevelAccepted (JStr s1) = Filters.isSchoolLevelAccepted (JStr s2) /\
  Filters.isDurationAccepted (JStr s1) = Filters.isDurationAccepted (JStr s2) /\
  Filters.isSubjectAccepted (JStr s1) = Filters.isSubjectAccepted (JStr s2) /\
  Filters.isSchoolNearby (JStr s1) = Filters.isSchoolNearby (JStr s2).
Proof.
  intros E. unfold Filters.isSchoolBlacklisted, Filters.isSchoolLevelAccepted,
    Filters.isDurationAccepted, Filters.isSubjectAccepted, Filters.isSchoolNearby.
  cbn [toLowerCase ebind]. rewrite E. repeat split.
Qed.

Lemma splitColon_app a b :
  noColon a = true -> splitColon (a ++ ":" ++ b) = a :: splitColon b.
Proof.
  induction a as [|c a IH]; intros H; [reflexivity|].
  cbn in H. apply andb_prop in H as [Hc Ha]. cbn.
  change (a ++ String ":" b) with (a ++ ":" ++ b). rewrite (IH Ha).
  destruct (Ascii.eqb c ":"); [discriminate|reflexivity].
Qed.

Lemma splitColon_noColon s : noColon s = true -> splitColon s = [s].
Proof.
  induction s as [|c s IH]; intros H; [reflexivity|].
  cbn in H. apply andb_prop in H as [Hc Hs]. cbn. rewrite (IH Hs).
  destruct (Ascii.eqb c ":"); [discriminate|reflexivity].
Qed.

Lemma queryAction_data qid a h :
  noColon a = true -> noColon h = true ->
  queryAction (mkQuery qid (JStr (a ++ ":" ++ h))) = (a, Some h).
Proof.
  intros Ha Hh. unfold queryAction. cbn [cq_data].
  rewrite (splitColon_app a h Ha), (splitColon_noColon h Hh). reflexivity.
Qed.

Lemma processQuery_spec st q w :
  fst (processQuery st q w) = st \/
  exists h e s, lookup h st = Some e /\ status e = notified /\
    (s = book_requested \/ s = ignored) /\
    fst (processQuery st q w) = set h (withStatus e s) st.
Proof.
  unfold processQuery. destruct (queryAction q) as [action [h|]]; [|left; reflexivity].
  destruct h as [|c h']; [left; reflexivity|].
  destruct (lookup (String c h') st) as [e|] eqn:El; [|left; reflexivity].
  destruct (String.eqb action "book"); [|destruct (String.eqb action "ignore")];
    [| |left; reflexivity];
    (destruct (status e) eqn:Es; cbn [status_eqb negb]; try (left; reflexivity));
    right; exists (String c h'), e; eexists;
    (split; [exact El|]); (split; [exact Es|]);
    [split; [left; reflexivity|] | split; [right; reflexivity|]];
    unfold setStatus; rewrite El; unfold updateMessageAfterAction;
    try destruct (editTarget e); reflexivity.
Qed.

Lemma callbackInv_step st0 st q : callbackInv st0 st -> yields (processQuery st q) (callbackInv st0).
Proof.
  intros [Hk Hl] w. destruct (processQuery_spec st q w) as [->|(h & e1 & s & Hl1 & Hs1 & Hs & ->)];
    [split; assumption|].
  split.
  - rewrite keys_set_existing by congruence. exact Hk.
  - intros k e Hk0. destruct (Hl k e Hk0) as [e' [He' Hor]].
    destruct (String.eqb k h) eqn:Ekh.
    + apply String.eqb_eq in Ekh. subst k. rewrite lookup_set_same.
      rewrite He' in Hl1. injection Hl1 as <-. exists (withStatus e' s). split; [reflexivity|].
      right. destruct Hor as [->|[Hn [-> | ->]]]; cbn in Hs1; try discriminate.
      split; [exact Hs1|]. destruct Hs as [->| ->]; auto.
    + apply String.eqb_neq in Ekh. rewrite lookup_set_other by exact Ekh. eauto.
Qed.

Lemma executeOne_none st h w : lookup h st = None -> fst (executeOne st h w) = st.
Proof. intros Hl. unfold executeOne. now rewrite Hl. Qed.

Lemma executeOne_some st h e w : lookup h st = Some e ->
  keys (fst (executeOne st h w)) = keys st /\
  (exists e', lookup h (fst (executeOne st h w)) = Some e' /\ execRel e e') /\
  (forall k, k <> h -> lookup k (fst (executeOne st h w)) = lookup k st).
Proof.
  intros Hl. destruct (status e) eqn:Es.
  2: { destruct (executeOne_book st h e w Hl Es) as [-> _].
       split; [apply keys_set_existing; congruence|]. split.
       - eexists; split; [apply lookup_set_same|]. unfold execRel. rewrite Es. cbn.
         unfold bookingOutcome. destruct (hasJobNumber e), (bookOracle w) as [|[]]; auto.
       - intros k Hk. apply lookup_set_other, Hk. }
  all: unfold executeOne; rewrite Hl, Es; cbn [status_eqb negb ret fst];
       (split; [reflexivity|]); (split; [exists e; split; [exact Hl|]; unfold execRel; rewrite Es; reflexivity|]);
       reflexivity.
Qed.

Lemma expireOne_none now st h w : lookup h st = None -> fst (expireOne now st h w) = st.
Proof. intros Hl. unfold expireOne. now rewrite Hl. Qed.

Lemma expireOne_fst now st h e w : lookup h st = Some e ->
  fst (expireOne now st h w) =
  if status_eqb (status e) notified && pastExpiry now e
  then set h (withStatus e expired) st else st.
Proof.
  intros Hl. unfold expireOne. rewrite Hl.
  destruct (status_eqb (status e) notified && pastExpiry now e); [|reflexivity].
  unfold setStatus. rewrite Hl. unfold updateMessageAfterAction.
  destruct (editTarget e); reflexivity.
Qed.

Lemma expireOne_some now st h e w : lookup h st = Some e ->
  keys (fst (expireOne now st h w)) = keys st /\
  (exists e', lookup h (fst (expireOne now st h w)) = Some e' /\ expireRel now e e') /\
  (forall k, k <> h -> lookup k (fst (expireOne now st h w)) = lookup k st).
Proof.
  intros Hl. rewrite (expireOne_fst now st h e w Hl). unfold expireRel.
  destruct (status_eqb (status e) notified && pastExpiry now e).
  - split; [apply keys_set_existing; congruence|]. split.
    + eexists; split; [apply lookup_set_same | reflexivity].
    + intros k Hk. apply lookup_set_other, Hk.
  - split; [reflexivity|]. split; [eauto|]. reflexivity.
Qed.

Lemma dateNow_fst w : fst (dateNow w) = hd 0 (clock w).
Proof. unfold dateNow. destruct (clock w) as [|t [|t' r]]; reflexivity. Qed.

Lemma lookup_filter_nodup (p : string * Entry -> bool) h st :
  NoDup (keys st) ->
  lookup h (filter p st) =
  match lookup h st with Some e => if p (h, e) then Some e else None | None => None end.
Proof.
  unfold keys. induction st as [|[k e] st IH]; cbn; intros Hnd; [reflexivity|].
  apply NoDup_cons_iff in Hnd as [Hk Hnd].
  destruct (String.eqb k h) eqn:E.
  - apply String.eqb_eq in E. subst k.
    destruct (p (h, e)) eqn:Ep; cbn; [now rewrite String.eqb_refl|].
    rewrite IH by exact Hnd.
    assert (Hn : lookup h st = None).
    { destruct (lookup h st) eqn:El; [|reflexivity].
      exfalso. apply Hk. exact (lookup_in_keys h st e0 El). }
    now rewrite Hn.
  - destruct (p (k, e)); cbn; [rewrite E|]; apply IH, Hnd.
Qed.

Lemma lookup_loaded h raw :
  lookup h (loadedStore (Some raw)) = option_map migrate (lookupDisk h raw).
Proof.
  induction raw as [|[k v] raw IH]; cbn; [reflexivity|].
  destruct (String.eqb k h); [reflexivity|exact IH].
Qed.

Lemma yields_foldM_in {A B} (f : A -> B -> M A) (Inv : A -> Prop) (xs : list B) :
  (forall a x, In x xs -> Inv a -> yields (f a x) Inv) ->
  forall a, Inv a -> yields (foldM f a xs) Inv.
Proof.
  induction xs as [|x xs IH]; intros Hf a Ha w; cbn; [exact Ha|].
  rewrite fst_bind. apply IH.
  - intros a' x' Hx. apply Hf. right; exact Hx.
  - apply Hf; [left; reflexivity | exact Ha].
Qed.

Lemma dispatchInv_step md5 da ms st0 acc m :
  In m ms -> dispatchInv md5 ms st0 acc ->
  yields (dispatchOne md5 da acc m) (dispatchInv md5 ms st0).
Proof.
  destruct acc as [[st n] a], m as [job fr]. intros Hin Hinv.
  unfold dispatchOne. destruct (lookup (createJobHash md5 job) st) eqn:El;
    [apply yields_ret; exact Hinv|].
  destruct Hinv as (added & -> & Hn & Ha & Hall).
  destruct (shouldAutoBook _ _);
    apply yields_bind_any; intros _; apply yields_bind_any; intros r;
    (destruct r as [mid|]; [|apply yields_ret; exists added; auto]);
    repeat (apply yields_bind_any; intros ?); apply yields_ret; cbn;
    rewrite set_new_app by exact El;
    eexists; (split; [rewrite <- app_assoc; reflexivity|]);
    rewrite length_app; cbn; (split; [lia|]); (split; [lia|]);
    intros h e Hhe; apply in_app_or in Hhe as [Hhe|[Hhe|[]]]; auto;
    injection Hhe as <- <-; exists job, fr; repeat split; auto.
Qed.

Lemma adds_ret {A} P (a : A) : traceAdds P (ret a).
Proof. intros w. exists []. split; [reflexivity | constructor]. Qed.

Lemma adds_bind {A B} P (m : M A) (k : A -> M B) :
  traceAdds P m -> (forall a, traceAdds P (k a)) -> traceAdds P (bind m k).
Proof.
  intros Hm Hk w. rewrite snd_bind.
  destruct (Hm w) as [n1 [E1 F1]]. destruct (Hk (fst (m w)) (snd (m w))) as [n2 [E2 F2]].
  exists (n2 ++ n1)%list. split.
  - rewrite E2, E1. apply app_assoc.
  - apply Forall_app; auto.
Qed.

Lemma adds_emit P ev : P ev -> traceAdds P (emit ev).
Proof. intros H w. exists [ev]. split; [reflexivity | constructor; auto]. Qed.

Lemma adds_quiet {A} P (m : M A) : (forall w, trace (snd (m w)) = trace w) -> traceAdds P m.
Proof. intros H w. exists []. split; [apply H | constructor]. Qed.

Lemma adds_foldM {A B} P (f : A -> B -> M A) (a : A) (xs : list B) :
  (forall a x, traceAdds P (f a x)) -> traceAdds P (foldM f a xs).
Proof.
  intros Hf. revert a. induction xs as [|x xs IH]; intros a; cbn.
  - apply adds_ret.
  - apply adds_bind; auto.
Qed.

Ltac quiet_auto :=
  apply adds_quiet; intros ?w;
  cbv [dateNow nextBookResult getWorld putDisk putOffset];
  repeat match goal with
         | |- context [clock ?w] => destruct (clock w) as [|? [|? ?]]
         | |- context [bookOracle ?w] => destruct (bookOracle w)
         | |- context [sendOracle ?w] => destruct (sendOracle w)
         end; reflexivity.

Ltac adds_auto :=
  repeat match goal with
         | |- traceAdds _ (bind _ _) => apply adds_bind; [|intros ?]
         | |- traceAdds _ (emit _) => apply adds_emit; cbn; auto
         | |- traceAdds _ (ret _) => apply adds_ret
         | |- traceAdds _ (foldM _ _ _) => apply adds_foldM; intros ? ?
         | |- traceAdds _ getWorld => quiet_auto
         | |- traceAdds _ dateNow => quiet_auto
         | |- traceAdds _ nextBookResult => quiet_auto
         | |- traceAdds _ (putDisk _) => quiet_auto
         | |- traceAdds _ (putOffset _) => quiet_auto
         | |- traceAdds _ (setStatus _ _ _) => unfold setStatus
         | |- traceAdds _ (answerCallback _ _) => unfold answerCallback
         | |- traceAdds _ (updateMessageAfterAction _ _) => unfold updateMessageAfterAction
         | |- traceAdds _ (bookJobOnPage _ _) => unfold bookJobOnPage
         | |- traceAdds _ (pollCallbackQueries _) => unfold pollCallbackQueries; cbv zeta
         | |- traceAdds _ (processQuery _ _) => unfold processQuery
         | |- traceAdds _ (executeOne _ _) => unfold executeOne
         | |- traceAdds _ (expireOne _ _ _) => unfold expireOne
         | |- traceAdds _ (let '(_, _) := ?p in _) => destruct p
         | |- traceAdds _ (match ?x with _ => _ end) => destruct x
         | |- traceAdds _ (if ?b then _ else _) => destruct b
         end.

Lemma keepLast_length {A} n (xs : list A) : (length (keepLast n xs) <= n)%nat.
Proof. unfold keepLast. rewrite length_skipn. lia. Qed.

Lemma keepLast_suffix {A} n (xs : list A) : exists pre, xs = (pre ++ keepLast n xs)%list.
Proof. unfold keepLast. exists (firstn (length xs - n) xs). symmetry. apply firstn_skipn. Qed.

Lemma keepLast_snoc_last {A} n (xs : list A) x d :
  (0 < n)%nat -> last (keepLast n (xs ++ [x])%list) d = x.
Proof.
  intros Hn. unfold keepLast. rewrite length_app. cbn.
  rewrite skipn_app. replace (length xs + 1 - n - length xs)%nat with 0%nat by lia.
  cbn. rewrite last_last. reflexivity.
Qed.

Lemma innerLoop_records_from (c : nat) (ts : list Tick) :
  (c < MAX_CONSECUTIVE_ERRORS)%nat ->
  let '(rs, ex) := innerLoop c ts in
  (ex = Some ExitTooManyErrors <->
     exists pre m, rs = (pre ++ [(m, false)])%list /\ recoveredAll pre) /\
  (ex <> Some ExitTooManyErrors -> recoveredAll rs).
Proof.
  unfold MAX_CONSECUTIVE_ERRORS.
  revert c. induction ts as [|t ts IH]; intros c Hc.
  { cbn. split; [split; [discriminate|intros (pre & m & Hr & _);
                 destruct pre; discriminate] | constructor]. }
  destruct t as [| | | |m]; cbn [innerLoop]; unfold MAX_CONSECUTIVE_ERRORS; cbv beta iota zeta.
  1-2: split; [split; [discriminate|intros (pre & m & Hr & _);
                destruct pre; discriminate] | constructor].
  - apply IH; exact Hc.
  - apply IH; lia.
  - destruct (Nat.leb 5 (S c)) eqn:Eb; [apply Nat.leb_le in Eb as Hle | apply Nat.leb_gt in Eb as Hlt].
    + replace (S c <? 5)%nat with false by (symmetry; apply Nat.ltb_ge; lia). cbv beta iota.
      split; [split; [intros _; exists [], m; split; [reflexivity|constructor] | reflexivity]
             | intros Hne; exfalso; apply Hne; reflexivity].
    + replace (S c <? 5)%nat with true by (symmetry; apply Nat.ltb_lt; lia).
      specialize (IH (S c) Hlt). destruct (innerLoop (S c) ts) as [rs ex].
      destruct IH as [[IH1 IH2] IH3]. split; [split|].
      * intros He. destruct (IH1 He) as (pre & m' & -> & Hp).
        exists ((m, true) :: pre), m'. split; [reflexivity | constructor; auto].
      * intros (pre & m' & Hr & Hp). destruct pre as [|p pre]; [discriminate|].
        injection Hr as _ Hr. apply IH2. exists pre, m'. inversion Hp; auto.
      * intros Hn. constructor; [reflexivity | apply IH3, Hn].
Qed.

Lemma innerLoop_throws_exit (c : nat) (ts : list Tick) :
  Forall (fun t => t = TickOffHours \/ exists m, t = TickCycleThrows m) ts ->
  (MAX_CONSECUTIVE_ERRORS <= c + countThrows ts)%nat ->
  (c < MAX_CONSECUTIVE_ERRORS)%nat ->
  snd (innerLoop c ts) = Some ExitTooManyErrors.
Proof.
  unfold MAX_CONSECUTIVE_ERRORS. revert c.
  induction ts as [|t ts IH]; intros c Hf Hn Hc; cbn [countThrows] in Hn; [lia|].
  inversion Hf as [|? ? [-> | [m ->]] Hf']; subst; cbn [countThrows] in Hn.
  - apply IH; auto.
  - cbn [innerLoop]. unfold MAX_CONSECUTIVE_ERRORS. cbv zeta.
    destruct (Nat.leb 5 (S c)) eqn:Eb; [reflexivity|apply Nat.leb_gt in Eb].
    specialize (IH (S c) Hf' ltac:(lia) Eb).
    destruct (innerLoop (S c) ts) as [rs ex]. exact IH.
Qed.

Lemma cleanupLoop_sound cutoff files f :
  In f (cleanupLoop cutoff files) ->
  debugFileName f = true /\ exists t, In (f, Some t) files /\ t < cutoff.
Proof.
  induction files as [|[g st] rest IH]; cbn; [intros []|].
  destruct ((endsWith g ".png" || endsWith g ".html") && negb (String.eqb g ".gitkeep")) eqn:Eg.
  - destruct st as [t|]; [|intros []].
    destruct (Z.ltb_spec t cutoff).
    + intros [<- | Hin].
      * split; [exact Eg|]. exists t. split; [left; reflexivity | assumption].
      * destruct (IH Hin) as [Hd (t' & Ht' & Hlt)]. split; [exact Hd|].
        exists t'. split; [right; exact Ht' | exact Hlt].
    + intros Hin. destruct (IH Hin) as [Hd (t' & Ht' & Hlt)]. split; [exact Hd|].
      exists t'. split; [right; exact Ht' | exact Hlt].
  - intros Hin. destruct (IH Hin) as [Hd (t' & Ht' & Hlt)]. split; [exact Hd|].
    exists t'. split; [right; exact Ht' | exact Hlt].
Qed.

Lemma cleanupLoop_complete cutoff files f t :
  Forall (fun p => snd p <> None) files ->
  In (f, Some t) files -> debugFileName f = true -> t < cutoff ->
  In f (cleanupLoop cutoff files).
Proof.
  intros Hall Hin Hd Ht. induction files as [|[g st] rest IH]; [destruct Hin|].
  inversion Hall as [|? ? Hs Hrest]; subst. cbn.
  destruct Hin as [Heq | Hin].
  - injection Heq as -> ->. unfold debugFileName in Hd. rewrite Hd.
    rewrite (proj2 (Z.ltb_lt _ _) Ht). left; reflexivity.
  - destruct ((endsWith g ".png" || endsWith g ".html") && negb (String.eqb g ".gitkeep")).
    + destruct st as [t'|]; [|cbn in Hs; congruence].
      destruct (t' <? cutoff); [right|]; auto.
    + auto.
Qed.

Lemma afterLetters_app d r :
  forallb isLetter (list_ascii_of_string d) = true ->
  afterLetters (d ++ String "," r) = String "," r.
Proof.
  induction d as [|c d IH]; cbn; [reflexivity|].
  intros H. apply andb_prop in H as [Hc Hd]. rewrite Hc. apply IH, Hd.
Qed.

Lemma dropWs_app ws s :
  forallb isWs (list_ascii_of_string ws) = true ->
  (match s with String c _ => isWs c = false | EmptyString => True end) ->
  dropWs (ws ++ s) = s.
Proof.
  intros Hw Hs. induction ws as [|c ws IH]; cbn in *.
  - destruct s as [|c s]; [reflexivity|]. cbn. rewrite Hs. reflexivity.
  - apply andb_prop in Hw as [Hc Hw]. rewrite Hc. apply IH, Hw.
Qed.

Lemma stripDayName_prefix d ws c r :
  d <> EmptyString ->
  forallb isLetter (list_ascii_of_string d) = true ->
  forallb isWs (list_ascii_of_string ws) = true ->
  isLetter c = false -> isWs c = false ->
  stripDayName (d ++ String "," (ws ++ String c r)) = String c r /\
  stripDayName (String c r) = String c r.
Proof.
  intros Hne Hd Hw Hl Hs. split.
  - unfold stripDayName. pose proof (afterLetters_app d (ws ++ String c r) Hd) as A.
    destruct d as [|c0 d0]; [congruence|]. cbn [String.append] in A |- *.
    cbn in Hd. apply andb_prop in Hd as [Hc0 _]. rewrite Hc0, A.
    apply dropWs_app; [exact Hw | exact Hs].
  - unfold stripDayName. rewrite Hl. reflexivity.
Qed.

End ExtraFacts.

(* ================================================================== *)
(** ** Further properties of the daemon, its statistics and utilities *)

Import Daemon Utils Props Frames Lifecycle DaemonFacts ExtraFacts.

(** *** The classifier *)

(** Extra X1: [filterJob] decides from its five axes: a job whose subject
    is rejected never matches; otherwise, at a blacklisted school it
    matches iff it is full-day (whatever the school level), and at any
    other school iff the school level is accepted and the job is full-day
    or a half day at a nearby school with an accepted subject.  A match is
    certain only for a full-day accepted subject at a school that is not
    blacklisted. *)
Theorem filterJob_decision (j : Job) (bl lvl fd nb : bool) (subj : Filters.Verdict)
  (H1 : Filters.isSchoolBlacklisted (school j) = Ok bl)
  (H2 : Filters.isSchoolLevelAccepted (school j) = Ok lvl)
  (H3 : Filters.isDurationAccepted (duration j) = Ok fd)
  (H4 : Filters.isSubjectAccepted (position j) = Ok subj)
  (H5 : Filters.isSchoolNearby (school j) = Ok nb) :
  exists r, Filters.filterJob j = Ok r /\
    Filters.match_ r =
      negb (Filters.verdict_eqb subj Filters.REJECT) &&
      (if bl then fd else lvl && (fd || nb && Filters.verdict_eqb subj Filters.ACCEPT)) /\
    Filters.uncertain r =
      Filters.match_ r && negb (negb bl && fd && Filters.verdict_eqb subj Filters.ACCEPT).
Proof. exact (filterJob_by_axes j bl lvl fd subj nb H1 H2 H3 H4 H5). Qed.

Lemma filterJob_decision_witness :
  exists r, Filters.filterJob certainJob = Ok r /\
    Filters.match_ r =
      negb (Filters.verdict_eqb Filters.ACCEPT Filters.REJECT) &&
      (if false then true
       else true && (true || true && Filters.verdict_eqb Filters.ACCEPT Filters.ACCEPT)) /\
    Filters.uncertain r =
      Filters.match_ r &&
      negb (negb false && true && Filters.verdict_eqb Filters.ACCEPT Filters.ACCEPT).
Proof.
  apply (filterJob_decision certainJob false true true true Filters.ACCEPT);
    vm_compute; reflexivity.
Defined.

(** Extra X2: [filterJob] gives the same [match] and [uncertain] to two
    jobs whose school, position and duration strings agree up to letter
    case. *)
Theorem filterJob_ignores_letter_case (j1 j2 : Job) (s1 s2 p1 p2 d1 d2 : string)
  (Hs1 : school j1 = JStr s1) (Hs2 : school j2 = JStr s2)
  (Hp1 : position j1 = JStr p1) (Hp2 : position j2 = JStr p2)
  (Hd1 : duration j1 = JStr d1) (Hd2 : duration j2 = JStr d2)
  (Es : lowerStr s1 = lowerStr s2) (Ep : lowerStr p1 = lowerStr p2)
  (Ed : lowerStr d1 = lowerStr d2) :
  exists r1 r2, Filters.filterJob j1 = Ok r1 /\ Filters.filterJob j2 = Ok r2 /\
    Filters.match_ r1 = Filters.match_ r2 /\ Filters.uncertain r1 = Filters.uncertain r2.
Proof.
  assert (Hc : classifiable j1 = true) by (unfold classifiable; now rewrite Hs1, Hp1, Hd1).
  destruct (ClassifierFacts.axes_ok j1 Hc)
    as (bl & lvl & fd & subj & nb & E1 & E2 & E3 & E4 & E5).
  destruct (axes_lower s1 s2 Es) as (S1 & S2 & _ & _ & S5).
  destruct (axes_lower p1 p2 Ep) as (_ & _ & _ & P4 & _).
  destruct (axes_lower d1 d2 Ed) as (_ & _ & D3 & _ & _).
  rewrite Hs1 in E1, E2, E5. rewrite Hp1 in E4. rewrite Hd1 in E3.
  destruct (filterJob_by_axes j1 bl lvl fd subj nb) as [r1 [R1 [M1 U1]]];
    [rewrite Hs1; exact E1 | rewrite Hs1; exact E2 | rewrite Hd1; exact E3
    | rewrite Hp1; exact E4 | rewrite Hs1; exact E5 |].
  destruct (filterJob_by_axes j2 bl lvl fd subj nb) as [r2 [R2 [M2 U2]]];
    [rewrite Hs2, <- S1; exact E1 | rewrite Hs2, <- S2; exact E2
    | rewrite Hd2, <- D3; exact E3 | rewrite Hp2, <- P4; exact E4
    | rewrite Hs2, <- S5; exact E5 |].
  exists r1, r2. repeat split; try assumption; congruence.
Qed.

Lemma filterJob_ignores_letter_case_witness :
  exists r1 r2, Filters.filterJob certainJob = Ok r1 /\
    Filters.filterJob
      (strJob "Wed, 2/25/2026" "TIMPANOGOS HIGH SCHOOL" "us history" "FULL DAY") = Ok r2 /\
    Filters.match_ r1 = Filters.match_ r2 /\ Filters.uncertain r1 = Filters.uncertain r2.
Proof.
  apply (filterJob_ignores_letter_case certainJob
           (strJob "Wed, 2/25/2026" "TIMPANOGOS HIGH SCHOOL" "us history" "FULL DAY")
           "Timpanogos High School" "TIMPANOGOS HIGH SCHOOL" "US History" "us history"
           "Full Day" "FULL DAY"); vm_compute; reflexivity.
Defined.

(** *** Telegram callbacks *)

(** Extra X3: the two buttons [sendJobNotificationWithKeyboard] attaches to
    a notification for fingerprint [h] (no colon in [h]) are parsed by
    [processCallbacks] as the actions [book] and [ignore] on [h]; pressed
    while the entry is [notified], they set it to [book_requested] and to
    [ignored]. *)
Theorem keyboard_buttons_reach_entry (st : Store) (h qid : string) (e : Entry) (w : World)
  (Hh : noColon h = true) (Hne : h <> "") (Hl : lookup h st = Some e)
  (Hs : status e = notified) :
  map (fun d => queryAction (mkQuery qid (JStr d))) (Utils.keyboardCallbackData h)
    = [("book", Some h); ("ignore", Some h)] /\
  map (fun d => fst (processQuery st (mkQuery qid (JStr d)) w)) (Utils.keyboardCallbackData h)
    = [set h (withStatus e book_requested) st; set h (withStatus e ignored) st].
Proof.
  unfold Utils.keyboardCallbackData.
  change ("book:" ++ h) with ("book" ++ ":" ++ h).
  change ("ignore:" ++ h) with ("ignore" ++ ":" ++ h).
  cbn [map]. unfold processQuery.
  rewrite !queryAction_data by (reflexivity || assumption).
  split; [reflexivity|].
  destruct h as [|c h']; [congruence|]. cbv iota beta. rewrite Hl, Hs.
  cbn [String.eqb Ascii.eqb Bool.eqb status_eqb negb].
  unfold setStatus. rewrite Hl. unfold updateMessageAfterAction.
  destruct (editTarget e); reflexivity.
Qed.

Lemma keyboard_buttons_reach_entry_witness :
  map (fun d => queryAction (mkQuery "q1" (JStr d))) (Utils.keyboardCallbackData "h")
    = [("book"%string, Some "h"%string); ("ignore"%string, Some "h"%string)] /\
  map (fun d => fst (processQuery [("h"%string, notifiedEntry)] (mkQuery "q1" (JStr d))
                       freshWorld))
      (Utils.keyboardCallbackData "h")
    = [set "h" (withStatus notifiedEntry book_requested) [("h"%string, notifiedEntry)];
       set "h" (withStatus notifiedEntry ignored) [("h"%string, notifiedEntry)]].
Proof.
  apply keyboard_buttons_reach_entry; [reflexivity | discriminate | reflexivity | reflexivity].
Defined.

(** Extra X4: a callback without a fingerprint, with an empty one, or with
    one that has no entry and is not a name every object inherits, is
    answered "Job not found or expired" and leaves the store unchanged. *)
Theorem unknown_fingerprint_answered_not_found (st : Store) (q : CallbackQuery) (w : World)
  (H : snd (queryAction q) = None \/ snd (queryAction q) = Some "" \/
       exists h, snd (queryAction q) = Some h /\ lookup h st = None /\
                 ~ In h objectPrototypeNames) :
  processQuery st q w = (st, snd (answerCallback (cq_id q) "Job not found or expired" w)).
Proof.
  unfold processQuery. destruct (queryAction q) as [action jh]. cbn [snd] in H.
  destruct H as [->|[->|[h [-> [Hl _]]]]]; [reflexivity|reflexivity|].
  destruct h as [|c h']; [reflexivity|]. cbv iota beta. rewrite Hl. reflexivity.
Qed.

Lemma unknown_fingerprint_answered_not_found_witness :
  processQuery [("h"%string, notifiedEntry)] (mkQuery "q2" (JStr "book:zz")) freshWorld =
  ([("h"%string, notifiedEntry)],
   snd (answerCallback "q2" "Job not found or expired" freshWorld)).
Proof.
  apply unknown_fingerprint_answered_not_found. right. right.
  exists "zz"%string. split; [reflexivity|]. split; [reflexivity|].
  intros Hin. repeat (destruct Hin as [Hin|Hin]; [discriminate Hin|]). exact Hin.
Defined.

(** Extra X5: the callback processor keeps the store's fingerprints, and
    changes an entry only if it was [notified], and then only to
    [book_requested] or [ignored]. *)
Theorem callbacks_only_resolve_notified (st : Store) (w : World) :
  keys (fst (processCallbacks st w)) = keys st /\
  forall h e, lookup h st = Some e ->
    exists e', lookup h (fst (processCallbacks st w)) = Some e' /\
      (e' = e \/ status e = notified /\
                 (e' = withStatus e book_requested \/ e' = withStatus e ignored)).
Proof.
  change (callbackInv st (fst (processCallbacks st w))).
  revert w. unfold processCallbacks.
  apply yields_bind_any; intros w0. apply yields_bind_any; intros [qs o].
  apply yields_bind_any; intros _.
  apply (yields_foldM processQuery (callbackInv st)).
  - intros a x Ha. apply callbackInv_step, Ha.
  - split; [reflexivity|]. intros h e He. exists e. auto.
Qed.

(** *** Booking, expiry, pruning and persistence *)

(** Extra X6: when the store holds each fingerprint once,
    [executePendingBookings] keeps its fingerprints, ends every
    [book_requested] entry [booked] or [failed], and leaves every other
    entry as it was. *)
Theorem pending_bookings_all_resolved (st : Store) (w : World) (Hnd : NoDup (keys st)) :
  keys (fst (executePendingBookings st w)) = keys st /\
  forall h e, lookup h st = Some e ->
    exists e', lookup h (fst (executePendingBookings st w)) = Some e' /\
      (if status_eqb (status e) book_requested
       then e' = withStatus e booked \/ e' = withStatus e failed
       else e' = e).
Proof.
  destruct (foldM_pointwise executeOne execRel executeOne_none executeOne_some
              (keys st) st w Hnd) as [Hk Hl].
  split; [exact Hk|]. intros h e He.
  destruct (Hl h e He) as [e' [He' [Hin _]]]. exists e'. split; [exact He'|].
  apply Hin. exact (lookup_in_keys h st e He).
Qed.

Lemma pending_bookings_all_resolved_witness :
  NoDup (keys [("h"%string, requestedEntry)]) /\
  keys (fst (executePendingBookings [("h"%string, requestedEntry)] lateWorld)) = ["h"%string].
Proof.
  assert (Hnd : NoDup (keys [("h"%string, requestedEntry)]))
    by (constructor; [intros [] | constructor]).
  split; [exact Hnd|].
  exact (proj1 (pending_bookings_all_resolved [("h"%string, requestedEntry)] lateWorld Hnd)).
Defined.

(** Extra X7: booking a [book_requested] entry sets it to [booked] when it
    has a non-empty job number and the page reports success, and to
    [failed] otherwise; no other entry changes, and the page is asked only
    when there is a job number. *)
Theorem booking_attempt_outcome (st : Store) (h : string) (e : Entry) (w : World)
  (Hl : lookup h st = Some e) (Hs : status e = book_requested) :
  lookup h (fst (executeOne st h w)) = Some (withStatus e (bookingOutcome e (bookOracle w))) /\
  (forall k, k <> h -> lookup k (fst (executeOne st h w)) = lookup k st) /\
  bookOracle (snd (executeOne st h w)) =
    (if hasJobNumber e then tl (bookOracle w) else bookOracle w).
Proof.
  destruct (executeOne_book st h e w Hl Hs) as [E1 E2]. rewrite E1.
  split; [apply lookup_set_same|]. split; [|exact E2].
  intros k Hk. apply lookup_set_other, Hk.
Qed.

Lemma booking_attempt_outcome_witness :
  lookup "h" (fst (executeOne [("h"%string, requestedEntry)] "h" lateWorld)) =
    Some (withStatus requestedEntry (bookingOutcome requestedEntry (bookOracle lateWorld))) /\
  bookingOutcome requestedEntry (bookOracle lateWorld) = booked.
Proof.
  split; [|reflexivity].
  exact (proj1 (booking_attempt_outcome [("h"%string, requestedEntry)] "h" requestedEntry
                  lateWorld eq_refl eq_refl)).
Defined.

(** Extra X8: when the store holds each fingerprint once,
    [expireOldNotifications] keeps its fingerprints and sets exactly the
    [notified] entries past their expiry (at the clock reading it takes)
    to [expired]. *)
Theorem expiry_sweep_exact (st : Store) (w : World) (Hnd : NoDup (keys st)) :
  keys (fst (expireOldNotifications st w)) = keys st /\
  forall h e, lookup h st = Some e ->
    lookup h (fst (expireOldNotifications st w)) =
      Some (if status_eqb (status e) notified && pastExpiry (hd 0 (clock w)) e
            then withStatus e expired else e).
Proof.
  unfold expireOldNotifications. rewrite fst_bind. rewrite <- dateNow_fst.
  set (now := fst (dateNow w)).
  destruct (foldM_pointwise (expireOne now) (expireRel now) (expireOne_none now)
              (expireOne_some now) (keys st) st (snd (dateNow w)) Hnd) as [Hk Hl].
  split; [exact Hk|]. intros h e He.
  destruct (Hl h e He) as [e' [He' [Hin _]]]. rewrite He'. f_equal.
  apply Hin. exact (lookup_in_keys h st e He).
Qed.

Lemma expiry_sweep_exact_witness :
  NoDup (keys [("h"%string, notifiedEntry)]) /\
  lookup "h" (fst (expireOldNotifications [("h"%string, notifiedEntry)] lateWorld)) =
    Some (withStatus notifiedEntry expired).
Proof.
  assert (Hnd : NoDup (keys [("h"%string, notifiedEntry)]))
    by (constructor; [intros [] | constructor]).
  split; [exact Hnd|].
  rewrite (proj2 (expiry_sweep_exact [("h"%string, notifiedEntry)] lateWorld Hnd)
             "h" notifiedEntry eq_refl).
  reflexivity.
Defined.

(** Extra X9: when the store holds each fingerprint once,
    [cleanOldNotifications] keeps exactly the entries whose timestamp is
    later than [MAX_JOB_AGE_DAYS] days before its clock reading, whatever
    their status. *)
Theorem prune_keeps_recent_entries (st : Store) (w : World) (Hnd : NoDup (keys st)) :
  forall h, lookup h (fst (cleanOldNotifications st w)) =
    match lookup h st with
    | Some e => if hd 0 (clock w) - MAX_JOB_AGE_DAYS * 24 * 60 * 60 * 1000 <? timestamp e
                then Some e else None
    | None => None
    end.
Proof.
  intros h. unfold cleanOldNotifications. rewrite fst_bind, dateNow_fst. cbn [ret fst].
  rewrite lookup_filter_nodup by exact Hnd. reflexivity.
Qed.

Lemma prune_keeps_recent_entries_witness :
  NoDup (keys [("h"%string, notifiedEntry)]) /\
  lookup "h" (fst (cleanOldNotifications [("h"%string, notifiedEntry)] lateWorld)) =
    Some notifiedEntry.
Proof.
  assert (Hnd : NoDup (keys [("h"%string, notifiedEntry)]))
    by (constructor; [intros [] | constructor]).
  split; [exact Hnd|].
  rewrite (prune_keeps_recent_entries [("h"%string, notifiedEntry)] lateWorld Hnd "h").
  reflexivity.
Defined.

(** Extra X10: loading the notified-jobs file right after saving a store
    gives back that store. *)
Theorem save_then_load_roundtrip (st : Store) (w : World) :
  fst (loadNotifiedJobs (snd (saveNotifiedJobs st w))) = st.
Proof.
  cbn. induction st as [|[k e] st IH]; cbn; [reflexivity|]. now rewrite IH.
Qed.

(** Extra X11: a fingerprint stored in the legacy format (a bare timestamp)
    is loaded as an [expired] entry with no job data, and pressing its
    [book] button is answered "Already expired" without changing the
    store. *)
Theorem legacy_entries_cannot_be_booked (raw : list (string * Stored)) (h qid : string)
  (ts : Z) (w : World)
  (Hd : lookupDisk h raw = Some (Legacy ts)) (Hh : noColon h = true) (Hne : h <> "") :
  lookup h (loadedStore (Some raw)) =
    Some {| status := expired; timestamp := ts; expiresAt := Some ts;
            telegramMessageId := None; jobData := None; e_uncertain := false;
            autoBooked := false |} /\
  processQuery (loadedStore (Some raw)) (mkQuery qid (JStr ("book:" ++ h))) w =
    (loadedStore (Some raw), snd (answerCallback qid "Already expired" w)).
Proof.
  assert (Hl : lookup h (loadedStore (Some raw)) = Some (migrate (Legacy ts)))
    by (rewrite lookup_loaded, Hd; reflexivity).
  split; [exact Hl|].
  unfold processQuery. change ("book:" ++ h) with ("book" ++ ":" ++ h).
  rewrite queryAction_data by (reflexivity || assumption).
  destruct h as [|c h']; [congruence|]. cbv iota beta. rewrite Hl. reflexivity.
Qed.

Lemma legacy_entries_cannot_be_booked_witness :
  processQuery (loadedStore (Some [("a1"%string, Legacy 500)]))
    (mkQuery "q1" (JStr "book:a1")) freshWorld =
  (loadedStore (Some [("a1"%string, Legacy 500)]),
   snd (answerCallback "q1" "Already expired" freshWorld)).
Proof.
  exact (proj2 (legacy_entries_cannot_be_booked [("a1"%string, Legacy 500)] "a1" "q1" 500
                  freshWorld eq_refl eq_refl ltac:(discriminate))).
Defined.

(** *** The scrape cycle *)

(** Extra X12: the dispatch loop of [performScrapeFilterNotify] only
    appends entries to the store; it appends as many as it counts as new
    notifications, at least as many as it counts as auto-booked, and each
    appended entry carries a matched job under that job's fingerprint and
    is either an auto-booked [book_requested] entry or a [notified] entry
    with the match's [uncertain] flag. *)
Theorem dispatch_only_appends (md5 : string -> string) (daysAheadOf : Job -> Z)
  (st : Store) (ms : list (Job * Filters.FilterResult)) (w : World) :
  let '(st', nNew, nAuto) := fst (foldM (dispatchOne md5 daysAheadOf) (st, O, O) ms w) in
  exists added, st' = (st ++ added)%list /\ length added = nNew /\ (nAuto <= nNew)%nat /\
    forall h e, In (h, e) added ->
      exists job fr, In (job, fr) ms /\ h = createJobHash md5 job /\ jobData e = Some job /\
        (status e = book_requested /\ autoBooked e = true \/
         status e = notified /\ e_uncertain e = Filters.uncertain fr).
Proof.
  change (dispatchInv md5 ms st (fst (foldM (dispatchOne md5 daysAheadOf) (st, O, O) ms w))).
  apply (yields_foldM_in _ (dispatchInv md5 ms st)).
  - intros acc m Hm Hinv. apply dispatchInv_step; assumption.
  - exists []. rewrite app_nil_r. repeat split; auto. intros h e [].
Qed.

(** Extra X13: when [filterJob] throws on one of the scraped jobs,
    [performScrapeFilterNotify] throws that error and sends no
    notification in that cycle, not even for the jobs that classify. *)
Theorem malformed_job_aborts_cycle (md5 : string -> string) (daysAheadOf : Job -> Z)
  (jobs : list Job) (w : World) (err : jserror)
  (H : matchJobs jobs = Throw err) :
  fst (performScrapeFilterNotify md5 daysAheadOf jobs w) = Throw err /\
  exists new, trace (snd (performScrapeFilterNotify md5 daysAheadOf jobs w)) =
                (new ++ trace w)%list /\ Forall notSend new.
Proof.
  split.
  - enough (Hy : yields (performScrapeFilterNotify md5 daysAheadOf jobs)
                   (fun r => r = Throw err)) by apply Hy.
    unfold performScrapeFilterNotify. rewrite H.
    repeat (apply yields_bind_any; intros ?). apply yields_ret. reflexivity.
  - enough (Ht : traceAdds notSend (performScrapeFilterNotify md5 daysAheadOf jobs))
      by apply Ht.
    unfold performScrapeFilterNotify. rewrite H.
    unfold loadNotifiedJobs, processCallbacks, executePendingBookings,
      expireOldNotifications, saveNotifiedJobs.
    adds_auto.
Qed.

Lemma malformed_job_aborts_cycle_witness :
  fst (performScrapeFilterNotify (fun s => s) (fun _ => 3) [certainJob; schoolessJob]
         freshWorld) =
    Throw (TypeError "Cannot read properties of undefined (reading 'toLowerCase')").
Proof.
  exact (proj1 (malformed_job_aborts_cycle (fun s => s) (fun _ => 3)
                  [certainJob; schoolessJob] freshWorld _ eq_refl)).
Defined.

(** *** Statistics *)

(** Extra X14: after [recordCheck], [recentChecks] holds at most 100
    records, ends with the record of this check, and is what is left of the
    old list plus that record after dropping the oldest ones. *)
Theorem recordCheck_keeps_last_100 (iso1 iso2 iso3 : string) (stats : ScraperStats)
  (result : CycleResult) (d : CheckRecord) :
  let c := mkCheck iso2 (jobsSeen result) (jobsMatched result) (jobsNotified result)
             (uncertainMatched result) (durationMs result) in
  let rc := recentChecks (recordCheck iso1 iso2 iso3 stats result) in
  (length rc <= 100)%nat /\ last rc d = c /\
  exists dropped, (recentChecks stats ++ [c])%list = (dropped ++ rc)%list.
Proof.
  intros c rc.
  assert (Hrc : rc = keepLast 100 (recentChecks stats ++ [c])%list).
  { unfold rc, recordCheck. cbv zeta. destruct (String.eqb _ _); reflexivity. }
  rewrite Hrc. split; [apply keepLast_length|]. split.
  - apply keepLast_snoc_last; lia.
  - apply keepLast_suffix.
Qed.

(** Extra X15: when the day has not changed, [recordCheck] adds the cycle's
    counts to today's counters (one more check, errors unchanged) and keeps
    the booking actions and the history. *)
Theorem recordCheck_same_day_accumulates (iso1 iso2 iso3 : string) (stats : ScraperStats)
  (result : CycleResult)
  (Hday : t_date (todayStats stats) = isoDay iso3) :
  let s' := recordCheck iso1 iso2 iso3 stats result in
  let t := todayStats stats in
  let t' := todayStats s' in
  t_date t' = t_date t /\
  totalChecks t' = totalChecks t + 1 /\
  totalJobsSeen t' = totalJobsSeen t + jobsSeen result /\
  totalJobsMatched t' = totalJobsMatched t + jobsMatched result /\
  totalJobsNotified t' = totalJobsNotified t + jobsNotified result /\
  totalUncertainMatched t' = Some (orZero (totalUncertainMatched t) + uncertainMatched result) /\
  totalUncertainNotified t' = Some (orZero (totalUncertainNotified t) + uncertainNotified result) /\
  totalErrors t' = totalErrors t /\
  bookingActions s' = bookingActions stats /\ history s' = history stats /\
  lastCheckTime (currentStatus s') = Some iso1.
Proof.
  cbv zeta. unfold recordCheck. cbv zeta. cbn [t_date]. rewrite Hday, String.eqb_refl.
  cbn. repeat split.
Qed.

Lemma recordCheck_same_day_accumulates_witness :
  totalChecks (todayStats (recordCheck "2026-02-25T10:00:00.000Z"
     "2026-02-25T10:00:00.000Z" "2026-02-25T10:00:00.000Z" sampleStats sampleCycle)) = 41.
Proof.
  destruct (recordCheck_same_day_accumulates "2026-02-25T10:00:00.000Z"
              "2026-02-25T10:00:00.000Z" "2026-02-25T10:00:00.000Z" sampleStats sampleCycle
              eq_refl) as (_ & H & _).
  rewrite H. reflexivity.
Defined.

(** Extra X16: when the date has changed, [recordCheck] archives the old
    day with this check already added to it, and also starts the new day
    with this check ([totalChecks] 1 and the cycle's counts), so the check
    is counted in both days; the booking actions are reset and the history
    keeps at most 14 days. *)
Theorem recordCheck_rollover_counts_check_twice (iso1 iso2 iso3 : string)
  (stats : ScraperStats) (result : CycleResult) (d : HistoryEntry)
  (Hday : t_date (todayStats stats) <> isoDay iso3) :
  let s' := recordCheck iso1 iso2 iso3 stats result in
  let t := todayStats stats in
  let h := last (history s') d in
  t_date (todayStats s') = isoDay iso3 /\
  totalChecks (todayStats s') = 1 /\
  totalJobsSeen (todayStats s') = jobsSeen result /\
  totalErrors (todayStats s') = 0 /\
  bookingActions s' = Some zeroActions /\
  h_date h = t_date t /\
  h_totalChecks h = totalChecks t + 1 /\
  h_totalJobsSeen h = totalJobsSeen t + jobsSeen result /\
  h_totalErrors h = totalErrors t /\
  h_bookingActions h = bookingActions stats /\
  (length (history s') <= 14)%nat.
Proof.
  cbv zeta. unfold recordCheck. cbv zeta. cbn [t_date].
  apply String.eqb_neq in Hday. rewrite Hday. cbn [todayStats bookingActions history
    t_date totalChecks totalJobsSeen totalErrors].
  rewrite keepLast_snoc_last by lia. cbn. repeat split. apply keepLast_length.
Qed.

Lemma recordCheck_rollover_counts_check_twice_witness :
  totalChecks (todayStats (recordCheck "2026-02-25T23:59:59.000Z"
     "2026-02-25T23:59:59.000Z" "2026-02-26T00:00:01.000Z" sampleStats sampleCycle)) = 1 /\
  h_totalChecks (last (history (recordCheck "2026-02-25T23:59:59.000Z"
     "2026-02-25T23:59:59.000Z" "2026-02-26T00:00:01.000Z" sampleStats sampleCycle))
     (archiveDay (todayStats sampleStats) None)) = 41.
Proof.
  destruct (recordCheck_rollover_counts_check_twice "2026-02-25T23:59:59.000Z"
              "2026-02-25T23:59:59.000Z" "2026-02-26T00:00:01.000Z" sampleStats sampleCycle
              (archiveDay (todayStats sampleStats) None)
              ltac:(vm_compute; discriminate))
    as (_ & H1 & _ & _ & _ & _ & H2 & _).
  rewrite H1, H2. split; reflexivity.
Defined.

(** Extra X17: [recordError] adds one to today's error count and nothing
    to the other counters, and keeps at most 20 errors, the new one
    last. *)
Theorem recordError_counts_and_keeps_last_20 (iso : string) (stats : ScraperStats)
  (msg : string) (recovered : bool) (d : ErrorRecord) :
  let s' := recordError iso stats msg recovered in
  totalErrors (todayStats s') = totalErrors (todayStats stats) + 1 /\
  totalChecks (todayStats s') = totalChecks (todayStats stats) /\
  t_date (todayStats s') = t_date (todayStats stats) /\
  (length (recentErrors s') <= 20)%nat /\
  last (recentErrors s') d = mkErr iso msg recovered /\
  recentChecks s' = recentChecks stats /\ history s' = history stats.
Proof.
  cbn. repeat split; [apply keepLast_length | apply keepLast_snoc_last; lia].
Qed.

(** Extra X18: restarting on the day the stored stats are for resumes them:
    today's counters, history, recent checks and errors are kept, the
    daemon is marked running since the new start time, and missing booking
    actions become all zero. *)
Theorem initStats_resumes_same_day (nowIso daemonStartTime : string) (ex : ScraperStats)
  (Hday : t_date (todayStats ex) = isoDay nowIso) :
  let s := initStats nowIso daemonStartTime (Some ex) in
  todayStats s = todayStats ex /\ history s = history ex /\
  recentChecks s = recentChecks ex /\ recentErrors s = recentErrors ex /\
  bookingActions s = Some (match bookingActions ex with Some b => b | None => zeroActions end) /\
  isRunning (currentStatus s) = true /\ upSince (currentStatus s) = daemonStartTime /\
  lastCheckTime (currentStatus s) = lastCheckTime (currentStatus ex).
Proof.
  cbv zeta. unfold initStats. cbv zeta. rewrite Hday, String.eqb_refl. cbn. repeat split.
Qed.

Lemma initStats_resumes_same_day_witness :
  todayStats (initStats "2026-02-25T12:00:00.000Z" "2026-02-25T12:00:00.000Z"
                (Some sampleStats)) = todayStats sampleStats.
Proof.
  exact (proj1 (initStats_resumes_same_day "2026-02-25T12:00:00.000Z"
                  "2026-02-25T12:00:00.000Z" sampleStats eq_refl)).
Defined.

(** Extra X19: starting on a later day than the stored stats archives the
    stored day as the last history entry, keeps at most 14 days of history,
    zeroes today's counters and booking actions, and keeps the recent
    checks and errors. *)
Theorem initStats_new_day_archives (nowIso daemonStartTime : string) (ex : ScraperStats)
  (d : HistoryEntry)
  (Hday : t_date (todayStats ex) <> isoDay nowIso) :
  let s := initStats nowIso daemonStartTime (Some ex) in
  todayStats s = mkToday (isoDay nowIso) 0 0 0 0 (Some 0) (Some 0) 0 /\
  bookingActions s = Some zeroActions /\
  last (history s) d = archiveDay (todayStats ex) (bookingActions ex) /\
  (length (history s) <= 14)%nat /\
  (exists dropped, (history ex ++ [archiveDay (todayStats ex) (bookingActions ex)])%list =
                   (dropped ++ history s)%list) /\
  recentChecks s = recentChecks ex /\ recentErrors s = recentErrors ex /\
  lastCheckTime (currentStatus s) = None.
Proof.
  cbv zeta. unfold initStats. cbv zeta. apply String.eqb_neq in Hday. rewrite Hday.
  cbn [todayStats bookingActions history recentChecks recentErrors currentStatus lastCheckTime].
  repeat split; [apply keepLast_snoc_last; lia | apply keepLast_length | apply keepLast_suffix].
Qed.

Lemma initStats_new_day_archives_witness :
  last (history (initStats "2026-02-26T06:00:00.000Z" "2026-02-26T06:00:00.000Z"
                   (Some sampleStats))) (archiveDay (todayStats sampleStats) None) =
    archiveDay (todayStats sampleStats) (bookingActions sampleStats).
Proof.
  destruct (initStats_new_day_archives "2026-02-26T06:00:00.000Z" "2026-02-26T06:00:00.000Z"
              sampleStats (archiveDay (todayStats sampleStats) None)
              ltac:(vm_compute; discriminate))
    as (_ & _ & H & _).
  exact H.
Defined.

(** *** The main loop and the utilities *)

(** Extra X20: in a browser session the inner loop records every failed
    cycle as recovered except the one that makes it give up: it exits for
    too many errors exactly when its last record is unrecovered. *)
Theorem loop_only_last_error_unrecovered (ts : list Tick) :
  let '(rs, ex) := innerLoop O ts in
  (ex = Some ExitTooManyErrors <->
     exists pre m, rs = (pre ++ [(m, false)])%list /\ recoveredAll pre) /\
  (ex <> Some ExitTooManyErrors -> recoveredAll rs).
Proof. apply innerLoop_records_from. unfold MAX_CONSECUTIVE_ERRORS. lia. Qed.

(** Extra X21: off-hours passes do not reset the consecutive error count:
    a session whose passes are only off-hours and failed cycles, with at
    least [MAX_CONSECUTIVE_ERRORS] failures, exits for too many errors. *)
Theorem off_hours_do_not_reset_errors (ts : list Tick)
  (Hf : Forall (fun t => t = TickOffHours \/ exists m, t = TickCycleThrows m) ts)
  (Hn : (MAX_CONSECUTIVE_ERRORS <= countThrows ts)%nat) :
  snd (innerLoop O ts) = Some ExitTooManyErrors.
Proof. apply innerLoop_throws_exit; auto. unfold MAX_CONSECUTIVE_ERRORS. lia. Qed.

Lemma off_hours_do_not_reset_errors_witness :
  snd (innerLoop O [TickCycleThrows "a"; TickOffHours; TickCycleThrows "b"; TickOffHours;
                    TickCycleThrows "c"; TickCycleThrows "d"; TickOffHours;
                    TickCycleThrows "e"]) = Some ExitTooManyErrors.
Proof.
  apply off_hours_do_not_reset_errors.
  - repeat (apply Forall_cons; [first [left; reflexivity | right; eexists; reflexivity] |]).
    apply Forall_nil.
  - unfold MAX_CONSECUTIVE_ERRORS. cbn. lia.
Defined.

(** Extra X22: [cleanupOldDebugFiles] deletes only [.png] and [.html]
    files, never [.gitkeep], and only files listed with a modification time
    before [maxAgeDays] days ago; nothing when the directory cannot be
    read. *)
Theorem cleanup_deletes_only_old_debug_files (maxAgeDays now : Z)
  (files : option (list (string * option Z))) (f : string)
  (Hin : In f (cleanupOldDebugFiles maxAgeDays now files)) :
  (endsWith f ".png" = true \/ endsWith f ".html" = true) /\ f <> ".gitkeep" /\
  exists fs t, files = Some fs /\ In (f, Some t) fs /\
               t < now - maxAgeDays * 24 * 60 * 60 * 1000.
Proof.
  unfold cleanupOldDebugFiles in Hin. destruct files as [fs|]; [|destruct Hin].
  destruct (cleanupLoop_sound _ _ _ Hin) as [Hd (t & Ht & Hlt)].
  unfold debugFileName in Hd. apply andb_prop in Hd as [Hd Hg].
  split; [apply orb_prop, Hd|]. split.
  - intros ->. discriminate Hg.
  - exists fs, t. auto.
Qed.

Lemma cleanup_deletes_only_old_debug_files_witness :
  exists fs t, Some debugDir = Some fs /\ In ("old.png"%string, Some t) fs /\
    t < 300000000 - 3 * 24 * 60 * 60 * 1000.
Proof.
  exact (proj2 (proj2 (cleanup_deletes_only_old_debug_files 3 300000000 (Some debugDir)
                         "old.png" ltac:(vm_compute; left; reflexivity)))).
Defined.

(** Extra X23: when no [stat] or [unlink] fails, [cleanupOldDebugFiles]
    deletes every [.png] or [.html] file older than [maxAgeDays] days. *)
Theorem cleanup_deletes_every_old_debug_file (maxAgeDays now : Z)
  (fs : list (string * option Z)) (f : string) (t : Z)
  (Hok : Forall (fun p => snd p <> None) fs)
  (Hin : In (f, Some t) fs)
  (Hname : endsWith f ".png" = true \/ endsWith f ".html" = true)
  (Hold : t < now - maxAgeDays * 24 * 60 * 60 * 1000) :
  In f (cleanupOldDebugFiles maxAgeDays now (Some fs)).
Proof.
  apply (cleanupLoop_complete _ _ _ t Hok Hin); [|exact Hold].
  unfold debugFileName. apply andb_true_intro. split.
  - apply orb_true_intro, Hname.
  - destruct (String.eqb_spec f ".gitkeep") as [->|]; [|reflexivity].
    destruct Hname as [H|H]; discriminate H.
Qed.

Lemma cleanup_deletes_every_old_debug_file_witness :
  In "old.html"%string (cleanupOldDebugFiles 3 300000000 (Some debugDir)).
Proof.
  apply (cleanup_deletes_every_old_debug_file 3 300000000 debugDir "old.html" 5).
  - repeat (apply Forall_cons; [discriminate|]). apply Forall_nil.
  - repeat (first [left; reflexivity | right]).
  - right. reflexivity.
  - vm_compute. reflexivity.
Defined.

(** Extra X24: the first [.png] or [.html] file whose [stat] or [unlink]
    throws ends [cleanupOldDebugFiles]: the files after it are not
    deleted. *)
Theorem cleanup_stops_at_first_fs_error (maxAgeDays now : Z)
  (pre post : list (string * option Z)) (f : string)
  (Hname : endsWith f ".png" = true \/ endsWith f ".html" = true) :
  cleanupOldDebugFiles maxAgeDays now (Some (pre ++ (f, None) :: post)%list) =
  cleanupOldDebugFiles maxAgeDays now (Some pre).
Proof.
  unfold cleanupOldDebugFiles. induction pre as [|[g st] pre IH]; cbn.
  - assert (Hd : (endsWith f ".png" || endsWith f ".html") && negb (String.eqb f ".gitkeep") = true).
    { apply andb_true_intro. split; [apply orb_true_intro, Hname|].
      destruct (String.eqb_spec f ".gitkeep") as [->|]; [|reflexivity].
      destruct Hname as [H|H]; discriminate H. }
    rewrite Hd. reflexivity.
  - destruct ((endsWith g ".png" || endsWith g ".html") && negb (String.eqb g ".gitkeep")); [|exact IH].
    destruct st as [t|]; [|reflexivity]. destruct (t <? _); [f_equal|]; exact IH.
Qed.

Lemma cleanup_stops_at_first_fs_error_witness :
  cleanupOldDebugFiles 3 300000000
    (Some ([("a.png"%string, Some 0)] ++ ("b.html"%string, None) :: [("c.png"%string, Some 0)])%list)
  = cleanupOldDebugFiles 3 300000000 (Some [("a.png"%string, Some 0)]) /\
  cleanupOldDebugFiles 3 300000000 (Some [("a.png"%string, Some 0)]) = ["a.png"%string].
Proof.
  split; [|reflexivity].
  apply cleanup_stops_at_first_fs_error. right. reflexivity.
Defined.

(** *** Auto-booking dates *)

(** Extra X25: [getJobDaysAhead] ignores a leading day name: a date
    "Day, rest" (letters, a comma, blanks) gives the same result as "rest"
    when "rest" starts with a character that is neither a letter nor
    blank. *)
Theorem day_name_prefix_ignored (calDays : string -> option Z) (job1 job2 : Job)
  (d ws : string) (c : ascii) (r : string)
  (Hne : d <> EmptyString)
  (Hd : forallb isLetter (list_ascii_of_string d) = true)
  (Hw : forallb isWs (list_ascii_of_string ws) = true)
  (Hl : isLetter c = false) (Hs : isWs c = false)
  (H1 : date job1 = JStr (d ++ String "," (ws ++ String c r)))
  (H2 : date job2 = JStr (String c r)) :
  getJobDaysAhead calDays job1 = getJobDaysAhead calDays job2.
Proof.
  destruct (stripDayName_prefix d ws c r Hne Hd Hw Hl Hs) as [E1 E2].
  unfold getJobDaysAhead. rewrite H1, H2, E1, E2.
  replace (String.eqb (d ++ String "," (ws ++ String c r)) "" ||
           String.eqb (d ++ String "," (ws ++ String c r)) "N/A") with false.
  - replace (String.eqb (String c r) "" || String.eqb (String c r) "N/A") with false;
      [reflexivity|].
    symmetry. apply orb_false_intro; apply String.eqb_neq; [discriminate|].
    intros [= -> ->]. vm_compute in Hl. discriminate Hl.
  - symmetry. apply orb_false_intro; apply String.eqb_neq.
    + destruct d; [congruence | discriminate].
    + destruct d as [|c0 [|c1 d]]; [congruence| |].
      * cbn. intros [=].
      * cbn in Hd. apply andb_prop in Hd as [_ Hd]. apply andb_prop in Hd as [Hc1 _].
        cbn. intros [= _ Ec1 _]. subst c1. vm_compute in Hc1. discriminate Hc1.
Qed.

Lemma day_name_prefix_ignored_witness :
  getJobDaysAhead (fun s => if String.eqb s "2/25/2026" then Some 5 else None) certainJob =
  getJobDaysAhead (fun s => if String.eqb s "2/25/2026" then Some 5 else None)
    (strJob "2/25/2026" "Timpanogos High School" "US History" "Full Day") /\
  getJobDaysAhead (fun s => if String.eqb s "2/25/2026" then Some 5 else None) certainJob = 5.
Proof.
  split; [|reflexivity].
  apply (day_name_prefix_ignored _ certainJob
           (strJob "2/25/2026" "Timpanogos High School" "US History" "Full Day")
           "Wed" " " "2" "/25/2026"); (discriminate || reflexivity).
Defined.

(** Extra X26: a job whose date is missing, not a string, empty, "N/A" or
    not parseable gets -1 days ahead and is never auto-booked. *)
Theorem unusable_date_never_autobooks (calDays : string -> option Z) (job : Job)
  (uncertain : bool)
  (H : match date job with
       | JStr s => s = "" \/ s = "N/A" \/ calDays (stripDayName s) = None
       | _ => True
       end) :
  getJobDaysAhead calDays job = -1 /\
  shouldAutoBook (getJobDaysAhead calDays job) uncertain = false.
Proof.
  assert (E : getJobDaysAhead calDays job = -1).
  { unfold getJobDaysAhead. destruct (date job); try reflexivity.
    destruct H as [-> | [-> | Hn]]; [reflexivity | reflexivity |].
    destruct (String.eqb s "" || String.eqb s "N/A"); [reflexivity|]. rewrite Hn. reflexivity. }
  split; [exact E|]. rewrite E. unfold shouldAutoBook. destruct uncertain; reflexivity.
Qed.

Lemma unusable_date_never_autobooks_witness :
  shouldAutoBook (getJobDaysAhead (fun _ => Some 9)
     (strJob "N/A" "Timpanogos High School" "US History" "Full Day")) false = false.
Proof.
  exact (proj2 (unusable_date_never_autobooks (fun _ => Some 9)
                  (strJob "N/A" "Timpanogos High School" "US History" "Full Day") false
                  ltac:(cbn; right; left; reflexivity))).
Defined.
